(** * CANopen object dictionary of the VMU and its metadata table

    The repository consists of two static tables:
    - [co_dict], the array of [CO_OBJ_T] records handed to the CANopen
      stack (file co_dictionary.cpp), and
    - [OBJECT_DICTIONARY], a [std::map] from (index, subindex) to
      descriptive metadata (file objectdictionary.cpp).

    Part I embeds both tables row by row.  Part II gives the registry
    engine (lookup, access mediation, storage resolution, handlers) that
    the specification describes on top of the tables; that engine is not
    in the sources and every definition of it says so.  Part III holds
    the theorems. *)

From stdpp Require Import gmap strings list fin_maps sorting.
From Stdlib Require Import ZArith Lia.
From Stdlib.Strings Require Import Byte.

Local Open Scope Z_scope.

(** * Part I: the tables of the sources *)

(** ** Records of co_dictionary.cpp *)

(** The flag words that [CO_KEY] receives as its third argument.  The
    header that defines their bit values (canopen_api.h) is not part of
    the sources, so a flag word is kept as the list of the macro names
    or-ed together in the source; the doc comment of co_dictionary.cpp
    says what each name stands for. *)
Inductive co_flag : Set :=
  | CO_UNSIGNED8 | CO_UNSIGNED16 | CO_UNSIGNED32
  | CO_SIGNED8 | CO_SIGNED16 | CO_SIGNED32
  | CO_STRING
  | CO_OBJ_D__R_ | CO_OBJ_DN_R_ | CO_OBJ____R_ | CO_OBJ_____W | CO_OBJ____RW.

#[global] Instance co_flag_eq_dec : EqDecision co_flag.
Proof. solve_decision. Defined.

(** [uint32_t Key], as built by [CO_KEY(Index, Subindex, Flags)]. *)
Record co_key : Set := CO_KEY {
  key_index : Z;
  key_subindex : Z;
  key_flags : list co_flag
}.

(** [CO_OBJ_TYPE_T* Type]: the special handlers named in the table; the
    literal [0] of the source is [None]. *)
Inductive co_obj_type : Set := CO_TSTRING | CO_COUNTER.

(** [uint32_t Data].  [eIndex name] is [static_cast<uint32_t>(eIndex::name)];
    the enumeration [db::eIndex] is declared outside the sources, so an
    enumerator is kept by its name.  The two COB-id macros are kept as
    they are written. *)
Inductive co_data : Set :=
  | Lit (v : Z)
  | eIndex (name : string)
  | CO_COBID_SDO_REQUEST
  | CO_COBID_SDO_RESPONSE.

(** [VoidPtr DataPtr]: the literal [0], the literal [nullptr], or the
    address of element [off] of a named object ([&k_commit_hash],
    [k_commit_time + 2], [manuf_data + 1]). *)
Inductive VoidPtr : Set :=
  | Zero
  | nullptr
  | Addr (object : string) (off : nat).

(** [uint16_t ExtraFlags]: [0] or [INIT_FROM_DB_FLAG]. *)
Inductive extra_flags : Set := NoExtraFlags | INIT_FROM_DB_FLAG.

Record CO_OBJ_T : Set := mkObj {
  Key : co_key;
  Type_ : option co_obj_type;
  Data : co_data;
  DataPtr : VoidPtr;
  ExtraFlags : extra_flags
}.

(** One initialiser of the array [co_dict]: a record, or the macro
    [CO_OBJ_DIR_ENDMARK] that marks the end of the used objects. *)
Inductive co_dict_row : Set :=
  | obj (k : co_key) (t : option co_obj_type) (d : co_data) (p : VoidPtr) (x : extra_flags)
  | CO_OBJ_DIR_ENDMARK.

#[global] Instance co_obj_type_eq_dec : EqDecision co_obj_type.
Proof. solve_decision. Defined.
#[global] Instance co_key_eq_dec : EqDecision co_key.
Proof. solve_decision. Defined.
#[global] Instance co_data_eq_dec : EqDecision co_data.
Proof. solve_decision. Defined.
#[global] Instance VoidPtr_eq_dec : EqDecision VoidPtr.
Proof. solve_decision. Defined.
#[global] Instance extra_flags_eq_dec : EqDecision extra_flags.
Proof. solve_decision. Defined.
#[global] Instance CO_OBJ_T_eq_dec : EqDecision CO_OBJ_T.
Proof. solve_decision. Defined.

(** [CO_OBJ_STR manuf_data[]]: offset and start of each string. *)
Definition manuf_data : list (Z * string) :=
  [ (0, "k_device_name"%string); (0, "k_device_hw_version"%string);
    (0, "k_device_sw_version"%string) ].

(** [k_device_name] and [k_device_hw_version]; [k_device_sw_version],
    [k_commit_hash] and [k_commit_time] come from build macros. *)
Definition k_device_name : string := "VMU_N1".
Definition k_device_hw_version : string := "2.0.0".

(** The structure holding all records of the CANopen dictionary. *)
Definition co_dict : list co_dict_row := [
  obj (CO_KEY 0x1000 0 [CO_UNSIGNED32; CO_OBJ_D__R_]) None (Lit 0x198) Zero NoExtraFlags;
  obj (CO_KEY 0x1005 0 [CO_UNSIGNED32; CO_OBJ_D__R_]) None (Lit 0x80) Zero NoExtraFlags;
  obj (CO_KEY 0x1008 0 [CO_STRING; CO_OBJ____R_]) (Some CO_TSTRING) (Lit 0) (Addr "manuf_data" 0) NoExtraFlags;
  obj (CO_KEY 0x1009 0 [CO_STRING; CO_OBJ____R_]) (Some CO_TSTRING) (Lit 0) (Addr "manuf_data" 1) NoExtraFlags;
  obj (CO_KEY 0x100A 0 [CO_STRING; CO_OBJ____R_]) (Some CO_TSTRING) (Lit 0) (Addr "manuf_data" 2) NoExtraFlags;
  obj (CO_KEY 0x1017 0 [CO_UNSIGNED16; CO_OBJ____R_]) None (eIndex "CO_PRODUCER_HB") nullptr INIT_FROM_DB_FLAG;
  obj (CO_KEY 0x1018 0 [CO_UNSIGNED8; CO_OBJ_D__R_]) None (Lit 4) Zero NoExtraFlags;
  obj (CO_KEY 0x1018 1 [CO_UNSIGNED32; CO_OBJ_D__R_]) None (Lit 0) Zero NoExtraFlags;
  obj (CO_KEY 0x1018 2 [CO_UNSIGNED32; CO_OBJ_D__R_]) None (Lit 0) Zero NoExtraFlags;
  obj (CO_KEY 0x1018 3 [CO_UNSIGNED32; CO_OBJ_D__R_]) None (Lit 0) Zero NoExtraFlags;
  obj (CO_KEY 0x1018 4 [CO_UNSIGNED32; CO_OBJ_D__R_]) None (Lit 0) Zero NoExtraFlags;
  obj (CO_KEY 0x1200 0 [CO_UNSIGNED8; CO_OBJ_D__R_]) None (Lit 2) Zero NoExtraFlags;
  obj (CO_KEY 0x1200 1 [CO_UNSIGNED32; CO_OBJ_DN_R_]) None CO_COBID_SDO_REQUEST Zero NoExtraFlags;
  obj (CO_KEY 0x1200 2 [CO_UNSIGNED32; CO_OBJ_DN_R_]) None CO_COBID_SDO_RESPONSE Zero NoExtraFlags;
  obj (CO_KEY 0x2100 0 [CO_UNSIGNED8; CO_OBJ_D__R_]) None (Lit 2) Zero NoExtraFlags;
  obj (CO_KEY 0x2100 1 [CO_UNSIGNED8; CO_OBJ____RW]) None (eIndex "GLOBAL_MANUAL_ENABLE") nullptr INIT_FROM_DB_FLAG;
  obj (CO_KEY 0x2100 2 [CO_UNSIGNED8; CO_OBJ____RW]) None (eIndex "JOYSTICK_ENABLE") nullptr INIT_FROM_DB_FLAG;
  obj (CO_KEY 0x2101 0 [CO_UNSIGNED8; CO_OBJ_D__R_]) None (Lit 1) Zero NoExtraFlags;
  obj (CO_KEY 0x2101 1 [CO_UNSIGNED16; CO_OBJ____RW]) None (eIndex "LIGHTS_TURNS_PERIOD_MS") nullptr INIT_FROM_DB_FLAG;
  obj (CO_KEY 0x2102 0 [CO_UNSIGNED8; CO_OBJ_D__R_]) None (Lit 2) Zero NoExtraFlags;
  obj (CO_KEY 0x2102 1 [CO_UNSIGNED32; CO_OBJ____RW]) (Some CO_COUNTER) (eIndex "EEPROM_CMD_READ") nullptr INIT_FROM_DB_FLAG;
  obj (CO_KEY 0x2102 2 [CO_UNSIGNED32; CO_OBJ____RW]) (Some CO_COUNTER) (eIndex "EEPROM_CMD_WRITE") nullptr INIT_FROM_DB_FLAG;
  obj (CO_KEY 0x2103 0 [CO_UNSIGNED8; CO_OBJ_D__R_]) None (Lit 4) Zero NoExtraFlags;
  obj (CO_KEY 0x2103 1 [CO_UNSIGNED32; CO_OBJ____R_]) None (Lit 0) (Addr "k_commit_hash" 0) NoExtraFlags;
  obj (CO_KEY 0x2103 2 [CO_UNSIGNED8; CO_OBJ____R_]) None (Lit 0) (Addr "k_commit_time" 0) NoExtraFlags;
  obj (CO_KEY 0x2103 3 [CO_UNSIGNED8; CO_OBJ____R_]) None (Lit 0) (Addr "k_commit_time" 1) NoExtraFlags;
  obj (CO_KEY 0x2103 4 [CO_UNSIGNED8; CO_OBJ____R_]) None (Lit 0) (Addr "k_commit_time" 2) NoExtraFlags;
  obj (CO_KEY 0x2107 0 [CO_UNSIGNED8; CO_OBJ_D__R_]) None (Lit 8) Zero NoExtraFlags;
  obj (CO_KEY 0x2107 1 [CO_UNSIGNED8; CO_OBJ____R_]) None (eIndex "PSTED_OUT_RUN") nullptr INIT_FROM_DB_FLAG;
  obj (CO_KEY 0x2107 2 [CO_UNSIGNED8; CO_OBJ____R_]) None (eIndex "PSTED_OUT_EM_STOP") nullptr INIT_FROM_DB_FLAG;
  obj (CO_KEY 0x2107 3 [CO_SIGNED16; CO_OBJ____R_]) None (eIndex "PSTED_OUT_REF_MAIN_VALUE") nullptr INIT_FROM_DB_FLAG;
  obj (CO_KEY 0x2107 4 [CO_UNSIGNED8; CO_OBJ____R_]) None (eIndex "PSTED_OUT_REF_FLUX_CURRENT") nullptr INIT_FROM_DB_FLAG;
  obj (CO_KEY 0x2107 5 [CO_UNSIGNED16; CO_OBJ____R_]) None (eIndex "PSTED_OUT_BMS_VOLTAGE") nullptr INIT_FROM_DB_FLAG;
  obj (CO_KEY 0x2107 6 [CO_UNSIGNED8; CO_OBJ____R_]) None (eIndex "SYSTEM_PSTED_ONLINE") nullptr INIT_FROM_DB_FLAG;
  obj (CO_KEY 0x2107 7 [CO_SIGNED16; CO_OBJ____R_]) None (eIndex "PSTED_OUT_REF_ANGLE") nullptr INIT_FROM_DB_FLAG;
  obj (CO_KEY 0x2107 8 [CO_UNSIGNED16; CO_OBJ____R_]) None (eIndex "PSTED_OUT_MOTOR_VELOCITY_LIMIT") nullptr INIT_FROM_DB_FLAG;
  obj (CO_KEY 0x2108 0 [CO_UNSIGNED8; CO_OBJ_D__R_]) None (Lit 16) Zero NoExtraFlags;
  obj (CO_KEY 0x2108 1 [CO_UNSIGNED32; CO_OBJ____R_]) None (eIndex "PSTED_STATUS") nullptr INIT_FROM_DB_FLAG;
  obj (CO_KEY 0x2108 2 [CO_SIGNED8; CO_OBJ____R_]) None (eIndex "PSTED_TORQUE") nullptr INIT_FROM_DB_FLAG;
  obj (CO_KEY 0x2108 3 [CO_SIGNED16; CO_OBJ____R_]) None (eIndex "PSTED_MOTOR_SPEED") nullptr INIT_FROM_DB_FLAG;
  obj (CO_KEY 0x2108 4 [CO_SIGNED8; CO_OBJ____R_]) None (eIndex "PSTED_CURRENT") nullptr INIT_FROM_DB_FLAG;
  obj (CO_KEY 0x2108 5 [CO_SIGNED8; CO_OBJ____R_]) None (eIndex "PSTED_POWER") nullptr INIT_FROM_DB_FLAG;
  obj (CO_KEY 0x2108 6 [CO_UNSIGNED8; CO_OBJ____R_]) None (eIndex "PSTED_VOLTAGE") nullptr INIT_FROM_DB_FLAG;
  obj (CO_KEY 0x2108 7 [CO_UNSIGNED8; CO_OBJ____R_]) None (eIndex "PSTED_PHASE_VOLTAGE") nullptr INIT_FROM_DB_FLAG;
  obj (CO_KEY 0x2108 8 [CO_UNSIGNED8; CO_OBJ____R_]) None (eIndex "PSTED_MOTOR_TEMP") nullptr INIT_FROM_DB_FLAG;
  obj (CO_KEY 0x2108 9 [CO_UNSIGNED8; CO_OBJ____R_]) None (eIndex "PSTED_FLUXCOIL_TEMP") nullptr INIT_FROM_DB_FLAG;
  obj (CO_KEY 0x2108 10 [CO_UNSIGNED8; CO_OBJ____R_]) None (eIndex "PSTED_INV_RADIATOR_TEMP") nullptr INIT_FROM_DB_FLAG;
  obj (CO_KEY 0x2108 11 [CO_UNSIGNED8; CO_OBJ____R_]) None (eIndex "PSTED_INV_INTERNAL_TEMP") nullptr INIT_FROM_DB_FLAG;
  obj (CO_KEY 0x2108 12 [CO_UNSIGNED32; CO_OBJ____R_]) None (eIndex "PSTED_ISOLATION_STATUS") nullptr INIT_FROM_DB_FLAG;
  obj (CO_KEY 0x2108 13 [CO_UNSIGNED32; CO_OBJ____R_]) None (eIndex "PSTED_ERRORS_1") nullptr INIT_FROM_DB_FLAG;
  obj (CO_KEY 0x2108 14 [CO_UNSIGNED16; CO_OBJ____R_]) None (eIndex "PSTED_ERRORS_2") nullptr INIT_FROM_DB_FLAG;
  obj (CO_KEY 0x2108 15 [CO_UNSIGNED16; CO_OBJ____R_]) None (eIndex "PSTED_WARNINGS") nullptr INIT_FROM_DB_FLAG;
  obj (CO_KEY 0x2108 16 [CO_SIGNED16; CO_OBJ____RW]) None (eIndex "PSTED_MANUAL_REFTORQUE") nullptr INIT_FROM_DB_FLAG;
  obj (CO_KEY 0x2109 0 [CO_UNSIGNED8; CO_OBJ_D__R_]) None (Lit 9) Zero NoExtraFlags;
  obj (CO_KEY 0x2109 1 [CO_UNSIGNED8; CO_OBJ____RW]) None (eIndex "PSTED_TORQUE_INVERT") nullptr INIT_FROM_DB_FLAG;
  obj (CO_KEY 0x2109 2 [CO_UNSIGNED16; CO_OBJ____RW]) None (eIndex "PSTED_RAMP_MAX_TORQUE") nullptr INIT_FROM_DB_FLAG;
  obj (CO_KEY 0x2109 3 [CO_UNSIGNED16; CO_OBJ____RW]) None (eIndex "PSTED_RAMP_TIME_MS") nullptr INIT_FROM_DB_FLAG;
  obj (CO_KEY 0x2109 4 [CO_UNSIGNED16; CO_OBJ____RW]) None (eIndex "PSTED_ONLINE_TIMEOUT_MS") nullptr INIT_FROM_DB_FLAG;
  obj (CO_KEY 0x2109 5 [CO_UNSIGNED8; CO_OBJ____RW]) None (eIndex "PSTED_CONTROL_MODE") nullptr INIT_FROM_DB_FLAG;
  obj (CO_KEY 0x2109 6 [CO_UNSIGNED16; CO_OBJ____RW]) None (eIndex "PSTED_MAX_STATOR_CURRENT") nullptr INIT_FROM_DB_FLAG;
  obj (CO_KEY 0x2109 7 [CO_UNSIGNED16; CO_OBJ____RW]) None (eIndex "PSTED_IF_TO_IQ_MULT") nullptr INIT_FROM_DB_FLAG;
  obj (CO_KEY 0x2109 8 [CO_SIGNED16; CO_OBJ____RW]) None (eIndex "PSTED_DEFAULT_ANGLE") nullptr INIT_FROM_DB_FLAG;
  obj (CO_KEY 0x2109 9 [CO_UNSIGNED16; CO_OBJ____RW]) None (eIndex "PSTED_DEFAULT_MOTOR_VELOCITY_LIMIT") nullptr INIT_FROM_DB_FLAG;
  obj (CO_KEY 0x2110 0 [CO_UNSIGNED8; CO_OBJ_D__R_]) None (Lit 4) Zero NoExtraFlags;
  obj (CO_KEY 0x2110 1 [CO_SIGNED16; CO_OBJ____RW]) None (eIndex "STEERING_MANUAL_CMD_FRONT") nullptr INIT_FROM_DB_FLAG;
  obj (CO_KEY 0x2110 2 [CO_SIGNED16; CO_OBJ____RW]) None (eIndex "STEERING_MANUAL_CMD_REAR") nullptr INIT_FROM_DB_FLAG;
  obj (CO_KEY 0x2110 3 [CO_UNSIGNED16; CO_OBJ____RW]) None (eIndex "STEERING_PARAM_MSG_TIMEOUT") nullptr INIT_FROM_DB_FLAG;
  obj (CO_KEY 0x2110 4 [CO_UNSIGNED8; CO_OBJ____RW]) None (eIndex "STEERING_PARAM_REAR_TASK_ACTIVE") nullptr INIT_FROM_DB_FLAG;
  obj (CO_KEY 0x2111 0 [CO_UNSIGNED8; CO_OBJ_D__R_]) None (Lit 14) Zero NoExtraFlags;
  obj (CO_KEY 0x2111 1 [CO_UNSIGNED32; CO_OBJ____R_]) None (eIndex "STEERING_AUTOPILOT_CMD_FRONT") nullptr INIT_FROM_DB_FLAG;
  obj (CO_KEY 0x2111 2 [CO_UNSIGNED32; CO_OBJ____R_]) None (eIndex "STEERING_AUTOPILOT_CUR_POS_FRONT") nullptr INIT_FROM_DB_FLAG;
  obj (CO_KEY 0x2111 3 [CO_SIGNED16; CO_OBJ____R_]) None (eIndex "STEERING_SERVO_CMD_FRONT") nullptr INIT_FROM_DB_FLAG;
  obj (CO_KEY 0x2111 4 [CO_SIGNED16; CO_OBJ____R_]) None (eIndex "STEERING_SERVO_CUR_POS_FRONT") nullptr INIT_FROM_DB_FLAG;
  obj (CO_KEY 0x2111 5 [CO_UNSIGNED8; CO_OBJ____R_]) None (eIndex "STEERING_SERVO_RUN_FRONT") nullptr INIT_FROM_DB_FLAG;
  obj (CO_KEY 0x2111 6 [CO_UNSIGNED8; CO_OBJ____R_]) None (eIndex "STEERING_SERVO_ONLINE_FRONT") nullptr INIT_FROM_DB_FLAG;
  obj (CO_KEY 0x2111 7 [CO_SIGNED16; CO_OBJ____RW]) None (eIndex "STEERING_PARAM_ZERO_FRONT") nullptr INIT_FROM_DB_FLAG;
  obj (CO_KEY 0x2111 8 [CO_SIGNED16; CO_OBJ____RW]) None (eIndex "STEERING_PARAM_MAX_FRONT") nullptr INIT_FROM_DB_FLAG;
  obj (CO_KEY 0x2111 9 [CO_SIGNED16; CO_OBJ____RW]) None (eIndex "STEERING_PARAM_MIN_FRONT") nullptr INIT_FROM_DB_FLAG;
  obj (CO_KEY 0x2111 10 [CO_UNSIGNED8; CO_OBJ____RW]) None (eIndex "STEERING_PARAM_INVERT_FRONT") nullptr INIT_FROM_DB_FLAG;
  obj (CO_KEY 0x2111 11 [CO_UNSIGNED8; CO_OBJ____R_]) None (eIndex "STEERING_SERVO_STATUS_FRONT") nullptr INIT_FROM_DB_FLAG;
  obj (CO_KEY 0x2111 12 [CO_SIGNED16; CO_OBJ____R_]) None (eIndex "STEERING_SERVO_CURRENT_FRONT") nullptr INIT_FROM_DB_FLAG;
  obj (CO_KEY 0x2111 13 [CO_UNSIGNED8; CO_OBJ____R_]) None (eIndex "STEERING_SERVO_TEMP_FRONT") nullptr INIT_FROM_DB_FLAG;
  obj (CO_KEY 0x2111 14 [CO_UNSIGNED8; CO_OBJ____R_]) None (eIndex "STEERING_SERVO_MOTORTEMP_FRONT") nullptr INIT_FROM_DB_FLAG;
  obj (CO_KEY 0x2112 0 [CO_UNSIGNED8; CO_OBJ_D__R_]) None (Lit 14) Zero NoExtraFlags;
  obj (CO_KEY 0x2112 1 [CO_UNSIGNED32; CO_OBJ____R_]) None (eIndex "STEERING_AUTOPILOT_CMD_REAR") nullptr INIT_FROM_DB_FLAG;
  obj (CO_KEY 0x2112 2 [CO_UNSIGNED32; CO_OBJ____R_]) None (eIndex "STEERING_AUTOPILOT_CUR_POS_REAR") nullptr INIT_FROM_DB_FLAG;
  obj (CO_KEY 0x2112 3 [CO_SIGNED16; CO_OBJ____R_]) None (eIndex "STEERING_SERVO_CMD_REAR") nullptr INIT_FROM_DB_FLAG;
  obj (CO_KEY 0x2112 4 [CO_SIGNED16; CO_OBJ____R_]) None (eIndex "STEERING_SERVO_CUR_POS_REAR") nullptr INIT_FROM_DB_FLAG;
  obj (CO_KEY 0x2112 5 [CO_UNSIGNED8; CO_OBJ____R_]) None (eIndex "STEERING_SERVO_RUN_REAR") nullptr INIT_FROM_DB_FLAG;
  obj (CO_KEY 0x2112 6 [CO_UNSIGNED8; CO_OBJ____R_]) None (eIndex "STEERING_SERVO_ONLINE_REAR") nullptr INIT_FROM_DB_FLAG;
  obj (CO_KEY 0x2112 7 [CO_SIGNED16; CO_OBJ____RW]) None (eIndex "STEERING_PARAM_ZERO_REAR") nullptr INIT_FROM_DB_FLAG;
  obj (CO_KEY 0x2112 8 [CO_SIGNED16; CO_OBJ____RW]) None (eIndex "STEERING_PARAM_MAX_REAR") nullptr INIT_FROM_DB_FLAG;
  obj (CO_KEY 0x2112 9 [CO_SIGNED16; CO_OBJ____RW]) None (eIndex "STEERING_PARAM_MIN_REAR") nullptr INIT_FROM_DB_FLAG;
  obj (CO_KEY 0x2112 10 [CO_UNSIGNED8; CO_OBJ____RW]) None (eIndex "STEERING_PARAM_INVERT_REAR") nullptr INIT_FROM_DB_FLAG;
  obj (CO_KEY 0x2112 11 [CO_UNSIGNED8; CO_OBJ____R_]) None (eIndex "STEERING_SERVO_STATUS_REAR") nullptr INIT_FROM_DB_FLAG;
  obj (CO_KEY 0x2112 12 [CO_SIGNED16; CO_OBJ____R_]) None (eIndex "STEERING_SERVO_CURRENT_REAR") nullptr INIT_FROM_DB_FLAG;
  obj (CO_KEY 0x2112 13 [CO_UNSIGNED8; CO_OBJ____R_]) None (eIndex "STEERING_SERVO_TEMP_REAR") nullptr INIT_FROM_DB_FLAG;
  obj (CO_KEY 0x2112 14 [CO_UNSIGNED8; CO_OBJ____R_]) None (eIndex "STEERING_SERVO_MOTORTEMP_REAR") nullptr INIT_FROM_DB_FLAG;
  obj (CO_KEY 0x2113 0 [CO_UNSIGNED8; CO_OBJ_D__R_]) None (Lit 5) Zero NoExtraFlags;
  obj (CO_KEY 0x2113 1 [CO_UNSIGNED8; CO_OBJ____R_]) None (eIndex "IOLIB_ERROR_CODE") nullptr INIT_FROM_DB_FLAG;
  obj (CO_KEY 0x2113 2 [CO_UNSIGNED8; CO_OBJ____R_]) None (eIndex "IOLIB_ERROR_DEVICE") nullptr INIT_FROM_DB_FLAG;
  obj (CO_KEY 0x2113 3 [CO_UNSIGNED16; CO_OBJ____R_]) None (eIndex "IOLIB_CFG_FLASH_ERRORS") nullptr INIT_FROM_DB_FLAG;
  obj (CO_KEY 0x2113 4 [CO_UNSIGNED16; CO_OBJ____R_]) None (eIndex "IOLIB_FLASH_ERRORS") nullptr INIT_FROM_DB_FLAG;
  obj (CO_KEY 0x2113 5 [CO_UNSIGNED16; CO_OBJ____R_]) None (eIndex "IOLIB_RAM_ERRORS") nullptr INIT_FROM_DB_FLAG;
  obj (CO_KEY 0x2114 0 [CO_UNSIGNED8; CO_OBJ_D__R_]) None (Lit 3) Zero NoExtraFlags;
  obj (CO_KEY 0x2114 1 [CO_UNSIGNED8; CO_OBJ____R_]) None (eIndex "MAINFSM_CURRENT_STATE") nullptr INIT_FROM_DB_FLAG;
  obj (CO_KEY 0x2114 2 [CO_UNSIGNED16; CO_OBJ____RW]) None (eIndex "MAINFSM_STARTUP_TIMEOUT_MS") nullptr INIT_FROM_DB_FLAG;
  obj (CO_KEY 0x2114 3 [CO_UNSIGNED16; CO_OBJ____RW]) None (eIndex "VEHICLE_STOP_TIMEOUT_MS") nullptr INIT_FROM_DB_FLAG;
  obj (CO_KEY 0x2115 0 [CO_UNSIGNED8; CO_OBJ_D__R_]) None (Lit 5) Zero NoExtraFlags;
  obj (CO_KEY 0x2115 1 [CO_UNSIGNED16; CO_OBJ____R_]) None (eIndex "CANOPEN_LISTER_FAULT_VALUE") nullptr INIT_FROM_DB_FLAG;
  obj (CO_KEY 0x2115 2 [CO_UNSIGNED8; CO_OBJ____R_]) None (eIndex "CANOPEN_LISTER_FAULT_NUM") nullptr INIT_FROM_DB_FLAG;
  obj (CO_KEY 0x2115 3 [CO_UNSIGNED16; CO_OBJ____R_]) None (eIndex "CANOPEN_LISTER_WARNING_VALUE") nullptr INIT_FROM_DB_FLAG;
  obj (CO_KEY 0x2115 4 [CO_UNSIGNED8; CO_OBJ____R_]) None (eIndex "CANOPEN_LISTER_WARNING_NUM") nullptr INIT_FROM_DB_FLAG;
  obj (CO_KEY 0x2115 5 [CO_UNSIGNED16; CO_OBJ____RW]) None (eIndex "CANOPEN_LISTER_TIMEOUT_MS") nullptr INIT_FROM_DB_FLAG;
  obj (CO_KEY 0x2116 0 [CO_UNSIGNED8; CO_OBJ_D__R_]) None (Lit 23) Zero NoExtraFlags;
  obj (CO_KEY 0x2116 1 [CO_UNSIGNED16; CO_OBJ____RW]) None (eIndex "BRAKE_ACC_PRESSURE_MAX") nullptr INIT_FROM_DB_FLAG;
  obj (CO_KEY 0x2116 2 [CO_UNSIGNED16; CO_OBJ____RW]) None (eIndex "BRAKE_ACC_PRESSURE_MIN") nullptr INIT_FROM_DB_FLAG;
  obj (CO_KEY 0x2116 3 [CO_UNSIGNED16; CO_OBJ____RW]) None (eIndex "BRAKE_ACC_PRESSURE_CRITICAL") nullptr INIT_FROM_DB_FLAG;
  obj (CO_KEY 0x2116 4 [CO_UNSIGNED16; CO_OBJ____RW]) None (eIndex "BRAKE_ACC_CRITICAL_TIMEOUT_MS") nullptr INIT_FROM_DB_FLAG;
  obj (CO_KEY 0x2116 5 [CO_UNSIGNED16; CO_OBJ____RW]) None (eIndex "BRAKE_SLA_VOLT_MAX") nullptr INIT_FROM_DB_FLAG;
  obj (CO_KEY 0x2116 6 [CO_UNSIGNED16; CO_OBJ____RW]) None (eIndex "BRAKE_SLA_VOLT_MIN") nullptr INIT_FROM_DB_FLAG;
  obj (CO_KEY 0x2116 7 [CO_UNSIGNED16; CO_OBJ____RW]) None (eIndex "BRAKE_SLR_VOLT_MAX") nullptr INIT_FROM_DB_FLAG;
  obj (CO_KEY 0x2116 8 [CO_UNSIGNED16; CO_OBJ____RW]) None (eIndex "BRAKE_SLR_VOLT_MIN") nullptr INIT_FROM_DB_FLAG;
  obj (CO_KEY 0x2116 9 [CO_UNSIGNED16; CO_OBJ____RW]) None (eIndex "BRAKE_PID_PROP_NUM") nullptr INIT_FROM_DB_FLAG;
  obj (CO_KEY 0x2116 10 [CO_UNSIGNED16; CO_OBJ____RW]) None (eIndex "BRAKE_PID_PROP_DENOM") nullptr INIT_FROM_DB_FLAG;
  obj (CO_KEY 0x2116 11 [CO_UNSIGNED16; CO_OBJ____RW]) None (eIndex "BRAKE_PID_INT_NUM") nullptr INIT_FROM_DB_FLAG;
  obj (CO_KEY 0x2116 12 [CO_UNSIGNED16; CO_OBJ____RW]) None (eIndex "BRAKE_PID_INT_DENOM") nullptr INIT_FROM_DB_FLAG;
  obj (CO_KEY 0x2116 13 [CO_UNSIGNED8; CO_OBJ____RW]) None (eIndex "BRAKE_DIRECT_UNITS_CONTROL") nullptr INIT_FROM_DB_FLAG;
  obj (CO_KEY 0x2116 14 [CO_UNSIGNED8; CO_OBJ____RW]) None (eIndex "BRAKE_TASK_ACTIVE") nullptr INIT_FROM_DB_FLAG;
  obj (CO_KEY 0x2116 15 [CO_UNSIGNED8; CO_OBJ____RW]) None (eIndex "BRAKE_ADC_FILTER_FACTOR") nullptr INIT_FROM_DB_FLAG;
  obj (CO_KEY 0x2116 16 [CO_UNSIGNED8; CO_OBJ____RW]) None (eIndex "BRAKE_MIN_VALID_CMD_VALUE") nullptr INIT_FROM_DB_FLAG;
  obj (CO_KEY 0x2116 17 [CO_UNSIGNED16; CO_OBJ____RW]) None (eIndex "BRAKE_MAX_ALLOW_PRESSURE_AT_ZERO") nullptr INIT_FROM_DB_FLAG;
  obj (CO_KEY 0x2116 18 [CO_UNSIGNED8; CO_OBJ____RW]) None (eIndex "BRAKE_EMERGENCY_STOP_POWER") nullptr INIT_FROM_DB_FLAG;
  obj (CO_KEY 0x2116 19 [CO_UNSIGNED8; CO_OBJ____RW]) None (eIndex "BRAKE_FRONT_CONTOUR_ENABLE") nullptr INIT_FROM_DB_FLAG;
  obj (CO_KEY 0x2116 20 [CO_UNSIGNED8; CO_OBJ____RW]) None (eIndex "BRAKE_REAR_CONTOUR_ENABLE") nullptr INIT_FROM_DB_FLAG;
  obj (CO_KEY 0x2116 21 [CO_UNSIGNED16; CO_OBJ____RW]) None (eIndex "BRAKE_PUMP_LOWER_THRES") nullptr INIT_FROM_DB_FLAG;
  obj (CO_KEY 0x2116 22 [CO_UNSIGNED16; CO_OBJ____RW]) None (eIndex "BRAKE_PUMP_UPPER_THRES") nullptr INIT_FROM_DB_FLAG;
  obj (CO_KEY 0x2116 23 [CO_UNSIGNED8; CO_OBJ____RW]) None (eIndex "BRAKE_VELOCITY_CONTROL_ENABLE") nullptr INIT_FROM_DB_FLAG;
  obj (CO_KEY 0x2117 0 [CO_UNSIGNED8; CO_OBJ_D__R_]) None (Lit 15) Zero NoExtraFlags;
  obj (CO_KEY 0x2117 1 [CO_UNSIGNED8; CO_OBJ____RW]) None (eIndex "BRAKE_CMD_CANOPEN") nullptr INIT_FROM_DB_FLAG;
  obj (CO_KEY 0x2117 2 [CO_UNSIGNED16; CO_OBJ____R_]) None (eIndex "BRAKE_CONT_REAR_CUR_PRESSURE_CANOPEN") nullptr INIT_FROM_DB_FLAG;
  obj (CO_KEY 0x2117 3 [CO_UNSIGNED16; CO_OBJ____R_]) None (eIndex "BRAKE_CONT_FRONT_CUR_PRESSURE_CANOPEN") nullptr INIT_FROM_DB_FLAG;
  obj (CO_KEY 0x2117 4 [CO_UNSIGNED8; CO_OBJ____R_]) None (eIndex "BRAKE_PUMP_ENABLED") nullptr INIT_FROM_DB_FLAG;
  obj (CO_KEY 0x2117 5 [CO_UNSIGNED16; CO_OBJ____R_]) None (eIndex "BRAKE_ACC_CUR_PRESSURE") nullptr INIT_FROM_DB_FLAG;
  obj (CO_KEY 0x2117 6 [CO_UNSIGNED8; CO_OBJ____RW]) None (eIndex "BRAKE_MANUAL_PUMP_EN") nullptr INIT_FROM_DB_FLAG;
  obj (CO_KEY 0x2117 9 [CO_UNSIGNED16; CO_OBJ____RW]) None (eIndex "BRAKE_SOL_ACCUM_REAR_MANUAL_CTRL") nullptr INIT_FROM_DB_FLAG;
  obj (CO_KEY 0x2117 10 [CO_UNSIGNED16; CO_OBJ____RW]) None (eIndex "BRAKE_SOL_REL_REAR_MANUAL_CTRL") nullptr INIT_FROM_DB_FLAG;
  obj (CO_KEY 0x2117 11 [CO_UNSIGNED16; CO_OBJ____RW]) None (eIndex "BRAKE_SOL_ACCUM_FRONT_MANUAL_CTRL") nullptr INIT_FROM_DB_FLAG;
  obj (CO_KEY 0x2117 12 [CO_UNSIGNED16; CO_OBJ____RW]) None (eIndex "BRAKE_SOL_REL_FRONT_MANUAL_CTRL") nullptr INIT_FROM_DB_FLAG;
  obj (CO_KEY 0x2117 13 [CO_UNSIGNED8; CO_OBJ____R_]) None (eIndex "BRAKE_ACC_ERRORS") nullptr INIT_FROM_DB_FLAG;
  obj (CO_KEY 0x2117 14 [CO_UNSIGNED8; CO_OBJ____R_]) None (eIndex "BRAKE_CONT_FRONT_ERRORS") nullptr INIT_FROM_DB_FLAG;
  obj (CO_KEY 0x2117 15 [CO_UNSIGNED8; CO_OBJ____R_]) None (eIndex "BRAKE_CONT_REAR_ERRORS") nullptr INIT_FROM_DB_FLAG;
  obj (CO_KEY 0x2118 0 [CO_UNSIGNED8; CO_OBJ_D__R_]) None (Lit 10) Zero NoExtraFlags;
  obj (CO_KEY 0x2118 1 [CO_UNSIGNED16; CO_OBJ____RW]) None (eIndex "BRAKE_CURVE_TIME_1") nullptr INIT_FROM_DB_FLAG;
  obj (CO_KEY 0x2118 2 [CO_UNSIGNED16; CO_OBJ____RW]) None (eIndex "BRAKE_CURVE_TIME_2") nullptr INIT_FROM_DB_FLAG;
  obj (CO_KEY 0x2118 3 [CO_UNSIGNED16; CO_OBJ____RW]) None (eIndex "BRAKE_CURVE_TIME_3") nullptr INIT_FROM_DB_FLAG;
  obj (CO_KEY 0x2118 4 [CO_UNSIGNED16; CO_OBJ____RW]) None (eIndex "BRAKE_CURVE_TIME_4") nullptr INIT_FROM_DB_FLAG;
  obj (CO_KEY 0x2118 5 [CO_UNSIGNED16; CO_OBJ____RW]) None (eIndex "BRAKE_CURVE_TIME_5") nullptr INIT_FROM_DB_FLAG;
  obj (CO_KEY 0x2118 6 [CO_UNSIGNED8; CO_OBJ____RW]) None (eIndex "BRAKE_CURVE_PRESSURE_1") nullptr INIT_FROM_DB_FLAG;
  obj (CO_KEY 0x2118 7 [CO_UNSIGNED8; CO_OBJ____RW]) None (eIndex "BRAKE_CURVE_PRESSURE_2") nullptr INIT_FROM_DB_FLAG;
  obj (CO_KEY 0x2118 8 [CO_UNSIGNED8; CO_OBJ____RW]) None (eIndex "BRAKE_CURVE_PRESSURE_3") nullptr INIT_FROM_DB_FLAG;
  obj (CO_KEY 0x2118 9 [CO_UNSIGNED8; CO_OBJ____RW]) None (eIndex "BRAKE_CURVE_PRESSURE_4") nullptr INIT_FROM_DB_FLAG;
  obj (CO_KEY 0x2118 10 [CO_UNSIGNED8; CO_OBJ____RW]) None (eIndex "BRAKE_CURVE_PRESSURE_5") nullptr INIT_FROM_DB_FLAG;
  obj (CO_KEY 0x2120 0 [CO_UNSIGNED8; CO_OBJ_D__R_]) None (Lit 4) Zero NoExtraFlags;
  obj (CO_KEY 0x2120 1 [CO_UNSIGNED8; CO_OBJ____R_]) None (eIndex "SYSTEM_BKU_ONLINE") nullptr INIT_FROM_DB_FLAG;
  obj (CO_KEY 0x2120 2 [CO_UNSIGNED16; CO_OBJ____RW]) None (eIndex "POWER_BKU_TURNOFF_TIMEOUT_MS") nullptr INIT_FROM_DB_FLAG;
  obj (CO_KEY 0x2120 3 [CO_UNSIGNED16; CO_OBJ____RW]) None (eIndex "SYSTEM_BKU_MSG_TIMEOUT") nullptr INIT_FROM_DB_FLAG;
  obj (CO_KEY 0x2120 4 [CO_UNSIGNED16; CO_OBJ____RW]) None (eIndex "JOYSTICK_TIMEOUT_MS") nullptr INIT_FROM_DB_FLAG;
  obj (CO_KEY 0x2121 0 [CO_UNSIGNED8; CO_OBJ_D__R_]) None (Lit 2) Zero NoExtraFlags;
  obj (CO_KEY 0x2121 1 [CO_UNSIGNED32; CO_OBJ____R_]) None (eIndex "SYSTEM_MAINLOOP_TIME") nullptr INIT_FROM_DB_FLAG;
  obj (CO_KEY 0x2121 2 [CO_UNSIGNED32; CO_OBJ____R_]) None (eIndex "SYSTEM_MAINLOOP_MAX_TIME") nullptr INIT_FROM_DB_FLAG;
  obj (CO_KEY 0x2125 0 [CO_UNSIGNED8; CO_OBJ_D__R_]) None (Lit 1) Zero NoExtraFlags;
  obj (CO_KEY 0x2125 1 [CO_UNSIGNED32; CO_OBJ____RW]) (Some CO_COUNTER) (eIndex "RESET_ERRORS_CMD_CANOPEN") nullptr INIT_FROM_DB_FLAG;
  obj (CO_KEY 0x2126 0 [CO_UNSIGNED8; CO_OBJ_D__R_]) None (Lit 11) Zero NoExtraFlags;
  obj (CO_KEY 0x2126 1 [CO_UNSIGNED8; CO_OBJ____R_]) None (eIndex "LOG_LAST_IDX") nullptr INIT_FROM_DB_FLAG;
  obj (CO_KEY 0x2126 2 [CO_UNSIGNED16; CO_OBJ____R_]) None (eIndex "LOG_FAULT_0") nullptr INIT_FROM_DB_FLAG;
  obj (CO_KEY 0x2126 3 [CO_UNSIGNED16; CO_OBJ____R_]) None (eIndex "LOG_FAULT_1") nullptr INIT_FROM_DB_FLAG;
  obj (CO_KEY 0x2126 4 [CO_UNSIGNED16; CO_OBJ____R_]) None (eIndex "LOG_FAULT_2") nullptr INIT_FROM_DB_FLAG;
  obj (CO_KEY 0x2126 5 [CO_UNSIGNED16; CO_OBJ____R_]) None (eIndex "LOG_FAULT_3") nullptr INIT_FROM_DB_FLAG;
  obj (CO_KEY 0x2126 6 [CO_UNSIGNED16; CO_OBJ____R_]) None (eIndex "LOG_FAULT_4") nullptr INIT_FROM_DB_FLAG;
  obj (CO_KEY 0x2126 7 [CO_UNSIGNED16; CO_OBJ____R_]) None (eIndex "LOG_FAULT_5") nullptr INIT_FROM_DB_FLAG;
  obj (CO_KEY 0x2126 8 [CO_UNSIGNED16; CO_OBJ____R_]) None (eIndex "LOG_FAULT_6") nullptr INIT_FROM_DB_FLAG;
  obj (CO_KEY 0x2126 9 [CO_UNSIGNED16; CO_OBJ____R_]) None (eIndex "LOG_FAULT_7") nullptr INIT_FROM_DB_FLAG;
  obj (CO_KEY 0x2126 10 [CO_UNSIGNED16; CO_OBJ____R_]) None (eIndex "LOG_FAULT_8") nullptr INIT_FROM_DB_FLAG;
  obj (CO_KEY 0x2126 11 [CO_UNSIGNED16; CO_OBJ____R_]) None (eIndex "LOG_FAULT_9") nullptr INIT_FROM_DB_FLAG;
  obj (CO_KEY 0x2130 0 [CO_UNSIGNED8; CO_OBJ_D__R_]) None (Lit 10) Zero NoExtraFlags;
  obj (CO_KEY 0x2130 1 [CO_UNSIGNED8; CO_OBJ____R_]) None (eIndex "SUSPENSION_ENABLE_PIN_SIGNAL") nullptr INIT_FROM_DB_FLAG;
  obj (CO_KEY 0x2130 2 [CO_SIGNED16; CO_OBJ____R_]) None (eIndex "SUSPENSION_HEIGHT_CUR_1") nullptr INIT_FROM_DB_FLAG;
  obj (CO_KEY 0x2130 3 [CO_SIGNED16; CO_OBJ____R_]) None (eIndex "SUSPENSION_HEIGHT_CUR_2") nullptr INIT_FROM_DB_FLAG;
  obj (CO_KEY 0x2130 4 [CO_SIGNED16; CO_OBJ____R_]) None (eIndex "SUSPENSION_HEIGHT_CUR_3") nullptr INIT_FROM_DB_FLAG;
  obj (CO_KEY 0x2130 5 [CO_SIGNED16; CO_OBJ____R_]) None (eIndex "SUSPENSION_HEIGHT_CUR_4") nullptr INIT_FROM_DB_FLAG;
  obj (CO_KEY 0x2130 6 [CO_UNSIGNED16; CO_OBJ____R_]) None (eIndex "SUSPENSION_PRESSURE_CUR_1") nullptr INIT_FROM_DB_FLAG;
  obj (CO_KEY 0x2130 7 [CO_UNSIGNED16; CO_OBJ____R_]) None (eIndex "SUSPENSION_PRESSURE_CUR_2") nullptr INIT_FROM_DB_FLAG;
  obj (CO_KEY 0x2130 8 [CO_UNSIGNED16; CO_OBJ____R_]) None (eIndex "SUSPENSION_PRESSURE_CUR_3") nullptr INIT_FROM_DB_FLAG;
  obj (CO_KEY 0x2130 9 [CO_UNSIGNED16; CO_OBJ____R_]) None (eIndex "SUSPENSION_PRESSURE_CUR_4") nullptr INIT_FROM_DB_FLAG;
  obj (CO_KEY 0x2130 10 [CO_UNSIGNED32; CO_OBJ____R_]) None (eIndex "SUSPENSION_TASK_DETAILED_STATUS") nullptr INIT_FROM_DB_FLAG;
  obj (CO_KEY 0x2131 0 [CO_UNSIGNED8; CO_OBJ_D__R_]) None (Lit 13) Zero NoExtraFlags;
  obj (CO_KEY 0x2131 1 [CO_UNSIGNED16; CO_OBJ____RW]) None (eIndex "SUSPENSION_PRESSURE_MAX") nullptr INIT_FROM_DB_FLAG;
  obj (CO_KEY 0x2131 2 [CO_UNSIGNED16; CO_OBJ____RW]) None (eIndex "SUSPENSION_PRESSURE_MIN") nullptr INIT_FROM_DB_FLAG;
  obj (CO_KEY 0x2131 3 [CO_UNSIGNED16; CO_OBJ____RW]) None (eIndex "SUSPENSION_HEIGHT_TOLERANCE") nullptr INIT_FROM_DB_FLAG;
  obj (CO_KEY 0x2131 4 [CO_UNSIGNED8; CO_OBJ____RW]) None (eIndex "SUSPENSION_PRESSURE_SENSOR_FILTER_PARAM") nullptr INIT_FROM_DB_FLAG;
  obj (CO_KEY 0x2131 5 [CO_UNSIGNED8; CO_OBJ____RW]) None (eIndex "SUSPENSION_HEIGHT_SENSOR_FILTER_PARAM") nullptr INIT_FROM_DB_FLAG;
  obj (CO_KEY 0x2131 6 [CO_UNSIGNED8; CO_OBJ____RW]) None (eIndex "SUSPENSION_HEIGHT_INVERT_1") nullptr INIT_FROM_DB_FLAG;
  obj (CO_KEY 0x2131 7 [CO_UNSIGNED8; CO_OBJ____RW]) None (eIndex "SUSPENSION_HEIGHT_INVERT_2") nullptr INIT_FROM_DB_FLAG;
  obj (CO_KEY 0x2131 8 [CO_UNSIGNED8; CO_OBJ____RW]) None (eIndex "SUSPENSION_HEIGHT_INVERT_3") nullptr INIT_FROM_DB_FLAG;
  obj (CO_KEY 0x2131 9 [CO_UNSIGNED8; CO_OBJ____RW]) None (eIndex "SUSPENSION_HEIGHT_INVERT_4") nullptr INIT_FROM_DB_FLAG;
  obj (CO_KEY 0x2131 10 [CO_SIGNED16; CO_OBJ____RW]) None (eIndex "SUSPENSION_HEIGHT_H_OFFSET_1") nullptr INIT_FROM_DB_FLAG;
  obj (CO_KEY 0x2131 11 [CO_SIGNED16; CO_OBJ____RW]) None (eIndex "SUSPENSION_HEIGHT_H_OFFSET_2") nullptr INIT_FROM_DB_FLAG;
  obj (CO_KEY 0x2131 12 [CO_SIGNED16; CO_OBJ____RW]) None (eIndex "SUSPENSION_HEIGHT_H_OFFSET_3") nullptr INIT_FROM_DB_FLAG;
  obj (CO_KEY 0x2131 13 [CO_SIGNED16; CO_OBJ____RW]) None (eIndex "SUSPENSION_HEIGHT_H_OFFSET_4") nullptr INIT_FROM_DB_FLAG;
  obj (CO_KEY 0x2135 0 [CO_UNSIGNED8; CO_OBJ_D__R_]) None (Lit 6) Zero NoExtraFlags;
  obj (CO_KEY 0x2135 1 [CO_UNSIGNED16; CO_OBJ____R_]) None (eIndex "SYSTEM_24V_VOLTAGE") nullptr INIT_FROM_DB_FLAG;
  obj (CO_KEY 0x2135 2 [CO_UNSIGNED16; CO_OBJ____R_]) None (eIndex "SYSTEM_12V_VOLTAGE") nullptr INIT_FROM_DB_FLAG;
  obj (CO_KEY 0x2135 3 [CO_UNSIGNED16; CO_OBJ____RW]) None (eIndex "SYSTEM_24V_VOLTAGE_LOWER_LIM") nullptr INIT_FROM_DB_FLAG;
  obj (CO_KEY 0x2135 4 [CO_UNSIGNED16; CO_OBJ____RW]) None (eIndex "SYSTEM_24V_VOLTAGE_UPPER_LIM") nullptr INIT_FROM_DB_FLAG;
  obj (CO_KEY 0x2135 5 [CO_UNSIGNED16; CO_OBJ____RW]) None (eIndex "SYSTEM_12V_VOLTAGE_LOWER_LIM") nullptr INIT_FROM_DB_FLAG;
  obj (CO_KEY 0x2135 6 [CO_UNSIGNED16; CO_OBJ____RW]) None (eIndex "SYSTEM_12V_VOLTAGE_UPPER_LIM") nullptr INIT_FROM_DB_FLAG;
  obj (CO_KEY 0x2140 0 [CO_UNSIGNED8; CO_OBJ_D__R_]) None (Lit 7) Zero NoExtraFlags;
  obj (CO_KEY 0x2140 1 [CO_UNSIGNED16; CO_OBJ____RW]) None (eIndex "BMS_TIMEOUT_MS") nullptr INIT_FROM_DB_FLAG;
  obj (CO_KEY 0x2140 2 [CO_UNSIGNED16; CO_OBJ____RW]) None (eIndex "CHARGER_TIMEOUT_MS") nullptr INIT_FROM_DB_FLAG;
  obj (CO_KEY 0x2140 3 [CO_UNSIGNED16; CO_OBJ____RW]) None (eIndex "CHARGER_PSTED_VOLTAGE_THRES") nullptr INIT_FROM_DB_FLAG;
  obj (CO_KEY 0x2140 4 [CO_UNSIGNED16; CO_OBJ____RW]) None (eIndex "CHARGER_IGNORE_VOLT_ERR_TIMEOUT_MS") nullptr INIT_FROM_DB_FLAG;
  obj (CO_KEY 0x2140 5 [CO_UNSIGNED8; CO_OBJ____R_]) None (eIndex "SYSTEM_BMS_ONLINE") nullptr INIT_FROM_DB_FLAG;
  obj (CO_KEY 0x2140 6 [CO_UNSIGNED8; CO_OBJ____R_]) None (eIndex "SYSTEM_BZU_ONLINE") nullptr INIT_FROM_DB_FLAG;
  obj (CO_KEY 0x2140 7 [CO_UNSIGNED32; CO_OBJ____R_]) None (eIndex "BMS_MULTIMSG_PAGE_DEBUG") nullptr INIT_FROM_DB_FLAG;
  obj (CO_KEY 0x2145 0 [CO_UNSIGNED8; CO_OBJ_D__R_]) None (Lit 2) Zero NoExtraFlags;
  obj (CO_KEY 0x2145 1 [CO_UNSIGNED8; CO_OBJ____RW]) None (eIndex "PARKING_BRAKE_CMD_HOLD_CANOPEN") nullptr INIT_FROM_DB_FLAG;
  obj (CO_KEY 0x2145 2 [CO_UNSIGNED8; CO_OBJ____R_]) None (eIndex "PARKING_BRAKE_HELD_CANOPEN") nullptr INIT_FROM_DB_FLAG;
  obj (CO_KEY 0x2146 0 [CO_UNSIGNED8; CO_OBJ_D__R_]) None (Lit 2) Zero NoExtraFlags;
  obj (CO_KEY 0x2146 1 [CO_UNSIGNED16; CO_OBJ____RW]) None (eIndex "BRAKE_DISCRETE_ACCUM_TIMEOUT_MS") nullptr INIT_FROM_DB_FLAG;
  obj (CO_KEY 0x2146 2 [CO_UNSIGNED16; CO_OBJ____RW]) None (eIndex "BRAKE_DISCRETE_TOTAL_TIMEOUT_MS") nullptr INIT_FROM_DB_FLAG;
  obj (CO_KEY 0x2150 0 [CO_UNSIGNED8; CO_OBJ_D__R_]) None (Lit 3) Zero NoExtraFlags;
  obj (CO_KEY 0x2150 1 [CO_UNSIGNED32; CO_OBJ____R_]) None (eIndex "INPUT_RED_BUTTON") nullptr INIT_FROM_DB_FLAG;
  obj (CO_KEY 0x2150 2 [CO_UNSIGNED8; CO_OBJ____R_]) None (eIndex "INPUT_ANTIFREEZE_SENSOR") nullptr INIT_FROM_DB_FLAG;
  obj (CO_KEY 0x2150 3 [CO_UNSIGNED8; CO_OBJ____R_]) None (eIndex "INPUT_BRAKE_FLUID_SENSOR") nullptr INIT_FROM_DB_FLAG;
  obj (CO_KEY 0x2160 0 [CO_UNSIGNED8; CO_OBJ_D__R_]) None (Lit 17) Zero NoExtraFlags;
  obj (CO_KEY 0x2160 1 [CO_UNSIGNED8; CO_OBJ____RW]) None (eIndex "ABS_WHEEL_TICK_COUNT") nullptr INIT_FROM_DB_FLAG;
  obj (CO_KEY 0x2160 2 [CO_UNSIGNED16; CO_OBJ____RW]) None (eIndex "ABS_WHEEL_DIAMETER") nullptr INIT_FROM_DB_FLAG;
  obj (CO_KEY 0x2160 3 [CO_SIGNED16; CO_OBJ____RW]) None (eIndex "ABS_WHEEL_MIN_SPEED_THRESHOLD") nullptr INIT_FROM_DB_FLAG;
  obj (CO_KEY 0x2160 4 [CO_SIGNED16; CO_OBJ____RW]) None (eIndex "ABS_MOTOR_MIN_SPEED_THRESHOLD") nullptr INIT_FROM_DB_FLAG;
  obj (CO_KEY 0x2160 5 [CO_UNSIGNED16; CO_OBJ____RW]) None (eIndex "ABS_WARNING_COUNT_THRESHOLD") nullptr INIT_FROM_DB_FLAG;
  obj (CO_KEY 0x2160 6 [CO_UNSIGNED16; CO_OBJ____RW]) None (eIndex "ABS_FAILURE_COUNT_THRESHOLD") nullptr INIT_FROM_DB_FLAG;
  obj (CO_KEY 0x2160 7 [CO_UNSIGNED8; CO_OBJ____RW]) None (eIndex "ABS_SENSOR_MAPPING_FL") nullptr INIT_FROM_DB_FLAG;
  obj (CO_KEY 0x2160 8 [CO_UNSIGNED8; CO_OBJ____RW]) None (eIndex "ABS_SENSOR_MAPPING_FR") nullptr INIT_FROM_DB_FLAG;
  obj (CO_KEY 0x2160 9 [CO_UNSIGNED8; CO_OBJ____RW]) None (eIndex "ABS_SENSOR_MAPPING_RL") nullptr INIT_FROM_DB_FLAG;
  obj (CO_KEY 0x2160 10 [CO_UNSIGNED8; CO_OBJ____RW]) None (eIndex "ABS_SENSOR_MAPPING_RR") nullptr INIT_FROM_DB_FLAG;
  obj (CO_KEY 0x2160 11 [CO_UNSIGNED8; CO_OBJ____RW]) None (eIndex "ABS_FILTER_FACTOR") nullptr INIT_FROM_DB_FLAG;
  obj (CO_KEY 0x2160 12 [CO_SIGNED16; CO_OBJ____R_]) None (eIndex "ABS_VELOCITY") nullptr INIT_FROM_DB_FLAG;
  obj (CO_KEY 0x2160 13 [CO_SIGNED16; CO_OBJ____R_]) None (eIndex "ABS_WHEEL_FREQ_FL_CANOPEN") nullptr INIT_FROM_DB_FLAG;
  obj (CO_KEY 0x2160 14 [CO_SIGNED16; CO_OBJ____R_]) None (eIndex "ABS_WHEEL_FREQ_FR_CANOPEN") nullptr INIT_FROM_DB_FLAG;
  obj (CO_KEY 0x2160 15 [CO_SIGNED16; CO_OBJ____R_]) None (eIndex "ABS_WHEEL_FREQ_RL_CANOPEN") nullptr INIT_FROM_DB_FLAG;
  obj (CO_KEY 0x2160 16 [CO_SIGNED16; CO_OBJ____R_]) None (eIndex "ABS_WHEEL_FREQ_RR_CANOPEN") nullptr INIT_FROM_DB_FLAG;
  obj (CO_KEY 0x2160 17 [CO_SIGNED16; CO_OBJ____RW]) None (eIndex "ABS_MIN_VELOCITY_THRESHOLD") nullptr INIT_FROM_DB_FLAG;
  obj (CO_KEY 0x2165 0 [CO_UNSIGNED8; CO_OBJ_D__R_]) None (Lit 7) Zero NoExtraFlags;
  obj (CO_KEY 0x2165 1 [CO_UNSIGNED8; CO_OBJ____RW]) None (eIndex "COOLING_MOTOR_TEMP_MIN") nullptr INIT_FROM_DB_FLAG;
  obj (CO_KEY 0x2165 2 [CO_UNSIGNED8; CO_OBJ____RW]) None (eIndex "COOLING_MOTOR_TEMP_MAX") nullptr INIT_FROM_DB_FLAG;
  obj (CO_KEY 0x2165 3 [CO_UNSIGNED8; CO_OBJ____RW]) None (eIndex "COOLING_INVERTOR_TEMP_MIN") nullptr INIT_FROM_DB_FLAG;
  obj (CO_KEY 0x2165 4 [CO_UNSIGNED8; CO_OBJ____RW]) None (eIndex "COOLING_INVERTOR_TEMP_MAX") nullptr INIT_FROM_DB_FLAG;
  obj (CO_KEY 0x2165 5 [CO_UNSIGNED8; CO_OBJ____RW]) None (eIndex "COOLING_COIL_TEMP_MIN") nullptr INIT_FROM_DB_FLAG;
  obj (CO_KEY 0x2165 6 [CO_UNSIGNED8; CO_OBJ____RW]) None (eIndex "COOLING_COIL_TEMP_MAX") nullptr INIT_FROM_DB_FLAG;
  obj (CO_KEY 0x2165 7 [CO_UNSIGNED8; CO_OBJ____RW]) None (eIndex "COOLING_FAN_ENABLE") nullptr INIT_FROM_DB_FLAG;
  CO_OBJ_DIR_ENDMARK
].

(** [k_dict_size = sizeof(co_dict) / sizeof(co_dict[0])]. *)
Definition k_dict_size : nat := length co_dict.

(** ** The map of objectdictionary.cpp *)

Inductive ODEntryDataType : Set :=
  | OD_STRING | OD_UINT32 | OD_FLOAT32 | OD_ENUM | OD_FUNC.

#[global] Instance ODEntryDataType_eq_dec : EqDecision ODEntryDataType.
Proof. solve_decision. Defined.

(** [ODEntryKey] is the pair (index, subindex). *)
Definition ODEntryKey : Type := (Z * Z)%type.

(** [ODEntryValue].  The header objectdictionary.h is not part of the
    sources; the fields are named, in the order of the initialisers,
    after the metadata record of the specification: group, subgroup,
    display name, unit, display type, monitorable, configurable. *)
Record ODEntryValue : Set := ODEntry {
  od_group : string;
  od_subgroup : string;
  od_name : string;
  od_unit : string;
  od_type : ODEntryDataType;
  od_monitorable : bool;
  od_configurable : bool
}.

(** The initialiser list of [OBJECT_DICTIONARY], in source order. *)
Definition OBJECT_DICTIONARY_init : list (ODEntryKey * ODEntryValue) := [
  ((0x1008, 0x00), ODEntry "INFO" "DEVICE" "DEVICE NAME" EmptyString OD_STRING true false);
  ((0x5FFF, 0x00), ODEntry "INFO" "SOFTWARE" "SOFTWARE VERSION" EmptyString OD_UINT32 true false);
  ((0x5FFF, 0x01), ODEntry "INFO" "SOFTWARE" "BUILD CONFIGURATION" EmptyString OD_STRING true false);
  ((0x2000, 0x00), ODEntry "WATCH" "WATCH" "UPTIME" "s" OD_FLOAT32 true false);
  ((0x2000, 0x01), ODEntry "WATCH" "WATCH" "DRIVE_STATE" EmptyString OD_ENUM true false);
  ((0x2000, 0x02), ODEntry "WATCH" "WATCH" "FAULTS" EmptyString OD_UINT32 true false);
  ((0x2000, 0x03), ODEntry "WATCH" "WATCH" "DC_VOLTAGE" "V" OD_FLOAT32 true false);
  ((0x2000, 0x04), ODEntry "WATCH" "WATCH" "DC_CURRENT" "A" OD_FLOAT32 true false);
  ((0x2000, 0x05), ODEntry "WATCH" "WATCH" "FIELD_CURRENT" "A" OD_FLOAT32 true true);
  ((0x2000, 0x06), ODEntry "WATCH" "WATCH" "STATOR_CURRENT" "A" OD_FLOAT32 true false);
  ((0x2000, 0x07), ODEntry "WATCH" "WATCH" "PHA_CURRENT" "A" OD_FLOAT32 true false);
  ((0x2000, 0x08), ODEntry "WATCH" "WATCH" "PHB_CURRENT" "A" OD_FLOAT32 true false);
  ((0x2000, 0x09), ODEntry "WATCH" "WATCH" "PHC_CURRENT" "A" OD_FLOAT32 true false);
  ((0x2000, 0x0A), ODEntry "WATCH" "WATCH" "D_CURRENT" "A" OD_FLOAT32 true false);
  ((0x2000, 0x0B), ODEntry "WATCH" "WATCH" "Q_CURRENT" "A" OD_FLOAT32 true false);
  ((0x2000, 0x0C), ODEntry "WATCH" "WATCH" "PHA_TEMP" "°C" OD_FLOAT32 true false);
  ((0x2000, 0x0D), ODEntry "WATCH" "WATCH" "PHB_TEMP" "°C" OD_FLOAT32 true false);
  ((0x2000, 0x0E), ODEntry "WATCH" "WATCH" "PHC_TEMP" "°C" OD_FLOAT32 true false);
  ((0x2000, 0x0F), ODEntry "WATCH" "WATCH" "CASE_TEMP" "°C" OD_FLOAT32 true false);
  ((0x2000, 0x10), ODEntry "WATCH" "WATCH" "MOTOR_S_TEMP" "°C" OD_FLOAT32 true false);
  ((0x2000, 0x11), ODEntry "WATCH" "WATCH" "MOTOR_FW_TEMP" "°C" OD_FLOAT32 true false);
  ((0x2000, 0x12), ODEntry "WATCH" "WATCH" "GAMMA_ANGLE_DEG" "°" OD_FLOAT32 true true);
  ((0x2000, 0x13), ODEntry "WATCH" "WATCH" "SPEED_RPM" "rpm" OD_FLOAT32 true true);
  ((0x2000, 0x14), ODEntry "WATCH" "WATCH" "TORQUE" "Nm" OD_FLOAT32 true false);
  ((0x2000, 0x15), ODEntry "WATCH" "WATCH" "MECH_POWER" "W" OD_FLOAT32 true false);
  ((0x2000, 0x16), ODEntry "WATCH" "WATCH" "OUT_ELEC_POWER" "W" OD_FLOAT32 true false);
  ((0x2001, 0x00), ODEntry "DRIVE CONTROL" "DRIVE CONTROL" "POWER UP DRIVE" EmptyString OD_FUNC false true);
  ((0x2001, 0x01), ODEntry "DRIVE CONTROL" "DRIVE CONTROL" "POWER DOWN DRIVE" EmptyString OD_FUNC false true);
  ((0x2002, 0x00), ODEntry "SYSTEM CONTROL" "SYSTEM CONTROL" "RESET DEVICE" EmptyString OD_FUNC false true);
  ((0x2002, 0x01), ODEntry "SYSTEM CONTROL" "SYSTEM CONTROL" "RESET PARAMETERS" EmptyString OD_FUNC false true);
  ((0x2002, 0x02), ODEntry "SYSTEM CONTROL" "SYSTEM CONTROL" "APPLY PARAMETERS" EmptyString OD_FUNC false true);
  ((0x2002, 0x03), ODEntry "SYSTEM CONTROL" "SYSTEM CONTROL" "BEGIN POSITION SENSOR CALIBRATION" EmptyString OD_FUNC false true);
  ((0x2002, 0x04), ODEntry "SYSTEM CONTROL" "SYSTEM CONTROL" "INVERT ROTATION" EmptyString OD_FUNC false true);
  ((0x2002, 0x05), ODEntry "SYSTEM CONTROL" "SYSTEM CONTROL" "RESET FAULTS" EmptyString OD_FUNC false true);
  ((0x2100, 0x00), ODEntry "CONFIG" "MOTOR" "R" "Ω" OD_FLOAT32 true true);
  ((0x2100, 0x01), ODEntry "CONFIG" "MOTOR" "LD" "H" OD_FLOAT32 true true);
  ((0x2100, 0x02), ODEntry "CONFIG" "MOTOR" "KLD" EmptyString OD_FLOAT32 true true);
  ((0x2100, 0x03), ODEntry "CONFIG" "MOTOR" "LQ" "H" OD_FLOAT32 true true);
  ((0x2100, 0x04), ODEntry "CONFIG" "MOTOR" "KLQ" EmptyString OD_FLOAT32 true true);
  ((0x2100, 0x05), ODEntry "CONFIG" "MOTOR" "OTP_STATOR" "°C" OD_FLOAT32 true true);
  ((0x2100, 0x06), ODEntry "CONFIG" "MOTOR" "OTP_FW" "°C" OD_FLOAT32 true true);
  ((0x2100, 0x07), ODEntry "CONFIG" "MOTOR" "FAN_TEMP_TH_ON" "°C" OD_FLOAT32 true true);
  ((0x2100, 0x08), ODEntry "CONFIG" "MOTOR" "FAN_TEMP_TH_OFF" "°C" OD_FLOAT32 true true);
  ((0x2101, 0x00), ODEntry "CONFIG" "MODEL" "REFERENCE" "n-M" OD_ENUM true true);
  ((0x2101, 0x01), ODEntry "CONFIG" "MODEL_REGULATORS" "KP_SPEED" EmptyString OD_FLOAT32 true true);
  ((0x2101, 0x02), ODEntry "CONFIG" "MODEL_REGULATORS" "KI_SPEED" EmptyString OD_FLOAT32 true true);
  ((0x2101, 0x03), ODEntry "CONFIG" "MODEL_REGULATORS" "KP_ID" EmptyString OD_FLOAT32 true true);
  ((0x2101, 0x04), ODEntry "CONFIG" "MODEL_REGULATORS" "KI_ID" EmptyString OD_FLOAT32 true true);
  ((0x2101, 0x05), ODEntry "CONFIG" "MODEL_REGULATORS" "KP_IQ" EmptyString OD_FLOAT32 true true);
  ((0x2101, 0x06), ODEntry "CONFIG" "MODEL_REGULATORS" "KI_IQ" EmptyString OD_FLOAT32 true true);
  ((0x2101, 0x07), ODEntry "CONFIG" "MODEL_REGULATORS" "KP_IF" EmptyString OD_FLOAT32 true true);
  ((0x2101, 0x08), ODEntry "CONFIG" "MODEL_REGULATORS" "KI_IF" EmptyString OD_FLOAT32 true true);
  ((0x2101, 0x09), ODEntry "CONFIG" "MODEL" "IS_MOTOR_MAX" "A" OD_FLOAT32 true true);
  ((0x2101, 0x0A), ODEntry "CONFIG" "MODEL" "IS_GENER_MAX" "A" OD_FLOAT32 true true);
  ((0x2101, 0x0B), ODEntry "CONFIG" "MODEL" "IF_MAX" "A" OD_FLOAT32 true true);
  ((0x2101, 0x0C), ODEntry "CONFIG" "MODEL" "TORQUE_POS_MAX" "Nm" OD_FLOAT32 true true);
  ((0x2101, 0x0D), ODEntry "CONFIG" "MODEL" "TORQUE_NEG_MAX" "Nm" OD_FLOAT32 true true);
  ((0x2101, 0x0E), ODEntry "CONFIG" "MODEL" "SPEED_MAX" "rpm" OD_FLOAT32 true true);
  ((0x2101, 0x0F), ODEntry "CONFIG" "MODEL_FLUX_WEAKENING" "KP_FLUXWEAK" EmptyString OD_FLOAT32 true true);
  ((0x2101, 0x10), ODEntry "CONFIG" "MODEL_FLUX_WEAKENING" "KI_FLUXWEAK" EmptyString OD_FLOAT32 true true);
  ((0x2101, 0x11), ODEntry "CONFIG" "MODEL_FLUX_WEAKENING" "ID_MAX_FLUXWEAK" "A" OD_FLOAT32 true true);
  ((0x2102, 0x00), ODEntry "CONFIG" "CONVERTER" "UVP_DC" "V" OD_FLOAT32 true true);
  ((0x2102, 0x01), ODEntry "CONFIG" "CONVERTER" "OVP_DC" "V" OD_FLOAT32 true true);
  ((0x2102, 0x02), ODEntry "CONFIG" "CONVERTER" "OCP_PHASE" "A" OD_FLOAT32 true true);
  ((0x2102, 0x03), ODEntry "CONFIG" "CONVERTER" "OCP_FIELD" "A" OD_FLOAT32 true true);
  ((0x2102, 0x04), ODEntry "CONFIG" "CONVERTER" "OCP_DC" "A" OD_FLOAT32 true true);
  ((0x2102, 0x05), ODEntry "CONFIG" "CONVERTER" "OTP_JUNCTION" "°C" OD_FLOAT32 true true);
  ((0x2102, 0x06), ODEntry "CONFIG" "CONVERTER" "OTP_CASE" "°C" OD_FLOAT32 true true);
  ((0x2102, 0x07), ODEntry "CONFIG" "CONVERTER" "FAN_TEMP_TH_ON" "°C" OD_FLOAT32 true true);
  ((0x2102, 0x08), ODEntry "CONFIG" "CONVERTER" "FAN_TEMP_TH_OFF" "°C" OD_FLOAT32 true true);
  ((0x2103, 0x00), ODEntry "CONFIG" "CONTACTOR" "DCLINK_CHARGE_THRESHOLD" "V" OD_FLOAT32 true true);
  ((0x2103, 0x01), ODEntry "CONFIG" "CONTACTOR" "DCLINK_CHARGE_TIMEOUT" "ms" OD_UINT32 true true);
  ((0x2103, 0x02), ODEntry "CONFIG" "CONTACTOR" "DCLINK_CONTACTOR_HOLDUP" "ms" OD_UINT32 true true);
  ((0x2103, 0x03), ODEntry "CONFIG" "CONTACTOR" "DCLINK_DISCHARGE_THRESHOLD" "V" OD_FLOAT32 true true);
  ((0x2103, 0x04), ODEntry "CONFIG" "CONTACTOR" "DCLINK_DISCHARGE_TIMEOUT" "ms" OD_UINT32 true true);
  ((0x2104, 0x00), ODEntry "CONFIG" "MCOSERVER" "PERIOD_HB" "ms" OD_UINT32 true true);
  ((0x2104, 0x01), ODEntry "CONFIG" "MCOSERVER" "PERIOD_TPDO1" "ms" OD_UINT32 true true);
  ((0x2104, 0x02), ODEntry "CONFIG" "MCOSERVER" "PERIOD_TPDO2" "ms" OD_UINT32 true true);
  ((0x2104, 0x03), ODEntry "CONFIG" "MCOSERVER" "PERIOD_TPDO3" "ms" OD_UINT32 true true);
  ((0x2104, 0x04), ODEntry "CONFIG" "MCOSERVER" "PERIOD_TPDO4" "ms" OD_UINT32 true true);
  ((0x2105, 0x00), ODEntry "CONFIG" "POSSENS" "SECTORS" EmptyString OD_UINT32 true true);
  ((0x2105, 0x01), ODEntry "CONFIG" "POSSENS" "CAL_S_CURRENT" "A" OD_FLOAT32 true true);
  ((0x2105, 0x02), ODEntry "CONFIG" "POSSENS" "CAL_F_CURRENT" "A" OD_FLOAT32 true true);
  ((0x2105, 0x03), ODEntry "CONFIG" "POSSENS" "CAL_SPEED_RPM" "rpm" OD_FLOAT32 true true);
  ((0xFFFF, 0xFF), ODEntry "NULL" "NULL" "END_OF_OD" EmptyString OD_FUNC false false)
].

(** [std::map] built from an initialiser list keeps, for a repeated key,
    the first pair; [list_to_map] does the same. *)
Definition OBJECT_DICTIONARY : gmap ODEntryKey ODEntryValue :=
  list_to_map OBJECT_DICTIONARY_init.

(** ** Reading a record *)

(** The objects the stack uses: every row up to [CO_OBJ_DIR_ENDMARK]. *)
Fixpoint used_objects (t : list co_dict_row) : list CO_OBJ_T :=
  match t with
  | [] => []
  | CO_OBJ_DIR_ENDMARK :: _ => []
  | obj k ty d p x :: rest => mkObj k ty d p x :: used_objects rest
  end.

(** The (index, subindex) part of a key. *)
Definition obj_key (o : CO_OBJ_T) : Z * Z :=
  (key_index (Key o), key_subindex (Key o)).

(** What the flag names say, after the doc comment of co_dictionary.cpp:
    [D] is direct access (the value is in [Data]), [N] asks for the node
    id to be added to [Data], [R] and [W] are the read and write
    access. *)
Definition flag_direct (f : co_flag) : bool :=
  match f with CO_OBJ_D__R_ | CO_OBJ_DN_R_ => true | _ => false end.

Definition flag_nodeid (f : co_flag) : bool :=
  match f with CO_OBJ_DN_R_ => true | _ => false end.

Definition flag_read (f : co_flag) : bool :=
  match f with
  | CO_OBJ_D__R_ | CO_OBJ_DN_R_ | CO_OBJ____R_ | CO_OBJ____RW => true
  | _ => false
  end.

Definition flag_write (f : co_flag) : bool :=
  match f with CO_OBJ_____W | CO_OBJ____RW => true | _ => false end.

(** Size in bytes and signedness named by a size flag; [CO_STRING] and
    the access flags name none. *)
Definition flag_size (f : co_flag) : option (nat * bool) :=
  match f with
  | CO_UNSIGNED8 => Some (1%nat, false)
  | CO_UNSIGNED16 => Some (2%nat, false)
  | CO_UNSIGNED32 => Some (4%nat, false)
  | CO_SIGNED8 => Some (1%nat, true)
  | CO_SIGNED16 => Some (2%nat, true)
  | CO_SIGNED32 => Some (4%nat, true)
  | _ => None
  end.

Definition is_direct (o : CO_OBJ_T) : bool := existsb flag_direct (key_flags (Key o)).
Definition adds_nodeid (o : CO_OBJ_T) : bool := existsb flag_nodeid (key_flags (Key o)).
Definition is_readable (o : CO_OBJ_T) : bool := existsb flag_read (key_flags (Key o)).
Definition is_writable (o : CO_OBJ_T) : bool := existsb flag_write (key_flags (Key o)).

Definition obj_size (o : CO_OBJ_T) : option (nat * bool) :=
  list_find (λ f, is_Some (flag_size f)) (key_flags (Key o)) ≫= λ '(_, f), flag_size f.

Definition init_from_db (o : CO_OBJ_T) : bool :=
  bool_decide (ExtraFlags o = INIT_FROM_DB_FLAG).

(** ** Sub-index bookkeeping *)

(** The sub-indices greater than 0 listed under an index, without
    repetition, and the value a direct sub-index 0 stores inline. *)
Definition subindices_above_0 (l : list CO_OBJ_T) (idx : Z) : list Z :=
  remove_dups
    (omap (λ o, if decide (key_index (Key o) = idx ∧ 0 < key_subindex (Key o))
                then Some (key_subindex (Key o)) else None) l).

Definition inline_subindex_0 (l : list CO_OBJ_T) (idx : Z) : option Z :=
  list_find (λ o, obj_key o = (idx, 0)) l ≫= λ '(_, o),
    match Data o with
    | Lit v => if is_direct o then Some v else None
    | _ => None
    end.

(** The indices that occur in the table, each once. *)
Definition indices (l : list CO_OBJ_T) : list Z :=
  remove_dups (map (λ o, key_index (Key o)) l).

(** ** Order of the keys *)

Definition key_lt (a b : Z * Z) : Prop :=
  a.1 < b.1 ∨ (a.1 = b.1 ∧ a.2 < b.2).

#[global] Instance key_lt_dec a b : Decision (key_lt a b).
Proof. unfold key_lt. apply _. Defined.

Definition key_compare (a b : Z * Z) : comparison :=
  match a.1 ?= b.1 with
  | Eq => a.2 ?= b.2
  | c => c
  end.

(** ** The rest of co_dictionary.cpp *)

(** [static constexpr uint32_t get_co_baudrate(uint16_t iolib_baud)
    { return iolib_baud * 1000U; }]: the 16-bit argument is converted to
    unsigned int, here 32 bits wide, and the product is taken modulo
    2^32. *)
Definition get_co_baudrate (iolib_baud : Z) : Z :=
  (iolib_baud * 1000) mod 2 ^ 32.

(** The element types of the objects whose address the table takes. *)
Inductive element_type : Set := uint8_t | uint32_t | CO_OBJ_STR.

#[global] Instance element_type_eq_dec : EqDecision element_type.
Proof. solve_decision. Defined.

(** Those objects, each with its element type and its number of elements
    as declared: [uint32_t k_commit_hash], [uint8_t k_commit_time[]] with
    the three initialisers day, month and year, and
    [CO_OBJ_STR manuf_data[]]. *)
Definition declared_objects : list (string * (element_type * nat)) :=
  [ ("k_commit_hash"%string, (uint32_t, 1%nat));
    ("k_commit_time"%string, (uint8_t, 3%nat));
    ("manuf_data"%string, (CO_OBJ_STR, length manuf_data)) ].

Definition declared_object (name : string) : option (element_type * nat) :=
  (list_to_map declared_objects : gmap string (element_type * nat)) !! name.

(** The arrays declared [const uint8_t ...[]], which the elements of
    [manuf_data] point to. *)
Definition const_strings : list string :=
  [ "k_device_name"%string; "k_device_hw_version"%string;
    "k_device_sw_version"%string ].

(** [struct CO_IF_DRV_T CO_drivers = {&CanOpenDriver, &CanOpenTimerDriver}]. *)
Definition CO_drivers : string * string :=
  ("CanOpenDriver"%string, "CanOpenTimerDriver"%string).

(** [evo_canopenstack::CanopenInitializer]; the fields are named after
    the comments of the initialiser, the header being outside the
    sources. *)
Record CanopenInitializer : Type := mkInitializer {
  NodeId : Z;
  Baudrate : Z;
  Dict : list co_dict_row;
  DictLen : nat;
  TmrFreq : Z;
  Drv : string * string
}.

(** [stack_initializer], for the node id and the baud rate in kBit/s of
    the board configuration (board_config.h is outside the sources). *)
Definition stack_initializer (k_nodeid k_canopen_baudrate : Z) : CanopenInitializer :=
  mkInitializer k_nodeid (get_co_baudrate k_canopen_baudrate) co_dict k_dict_size
                1000000 CO_drivers.

(** A flag name that gives a size, and one that gives the access. *)
Definition is_size_flag (f : co_flag) : bool :=
  match f with
  | CO_UNSIGNED8 | CO_UNSIGNED16 | CO_UNSIGNED32
  | CO_SIGNED8 | CO_SIGNED16 | CO_SIGNED32 | CO_STRING => true
  | _ => false
  end.

Definition is_access_flag (f : co_flag) : bool := negb (is_size_flag f).

(** * Part II: the registry engine of the specification *)

(** ** Vocabulary *)

(** Modelled from the spec: the error kinds of section 7; the sources
    hold no error type. *)
Inductive error : Set :=
  | NotFound | AccessDenied | SizeMismatch | BackingStoreUnavailable | BuildError.

(** Modelled from the spec: every operation returns an explicit result or
    error value (section 7); the sources hold no result type. *)
Inductive result (A : Type) : Type :=
  | Ok (a : A)
  | Err (e : error).
Arguments Ok {A} a.
Arguments Err {A} e.

(** Modelled from the spec: the operation argument of [handle_request]
    (section 6), absent from the sources. *)
Inductive operation : Set := READ | WRITE.

(** Modelled from the spec: the [access] attribute of an Entry Descriptor
    (section 3), which the sources pack into the flag names. *)
Inductive access : Set := read_only | write_only | read_write.

(** Modelled from the spec: the [storage_mode] attribute of an Entry
    Descriptor (section 3). *)
Inductive storage_mode : Set :=
  | inline_constant | inline_mutable | pointer_to_external | deferred_backing_store.

(** Modelled from the spec: the [handler] attribute of an Entry Descriptor
    (sections 3 and 4.3). *)
Inductive handler : Set := string_table | monotonic_counter | plain_scalar.

#[global] Instance error_eq_dec : EqDecision error.
Proof. solve_decision. Defined.
#[global] Instance access_eq_dec : EqDecision access.
Proof. solve_decision. Defined.
#[global] Instance storage_mode_eq_dec : EqDecision storage_mode.
Proof. solve_decision. Defined.
#[global] Instance handler_eq_dec : EqDecision handler.
Proof. solve_decision. Defined.

(** ** The Entry Descriptor of a record *)

(** Modelled from the spec: the access set of a descriptor, read off the
    [R] and [W] letters of the flag names of the source row. *)
Definition access_of (o : CO_OBJ_T) : option access :=
  match is_readable o, is_writable o with
  | true, true => Some read_write
  | true, false => Some read_only
  | false, true => Some write_only
  | false, false => None
  end.

(** Modelled from the spec: the storage mode of a descriptor.  A direct
    row keeps its value in [Data] (constant when it cannot be written);
    a row flagged [INIT_FROM_DB_FLAG] defers to the backing store; any
    other row points to external memory. *)
Definition storage_mode_of (o : CO_OBJ_T) : storage_mode :=
  if is_direct o then
    if is_writable o then inline_mutable else inline_constant
  else if init_from_db o then deferred_backing_store
  else pointer_to_external.

(** Modelled from the spec: the handler of a descriptor, from the [Type]
    column; no type means direct raw access (plain scalar). *)
Definition handler_of (o : CO_OBJ_T) : handler :=
  match Type_ o with
  | Some CO_TSTRING => string_table
  | Some CO_COUNTER => monotonic_counter
  | None => plain_scalar
  end.

(** Byte count and signedness of the data width of a row; 0 when the row
    names no scalar size. *)
Definition obj_width (o : CO_OBJ_T) : nat := from_option fst 0%nat (obj_size o).

Definition obj_signed (o : CO_OBJ_T) : bool := from_option snd false (obj_size o).

(** ** Wire values *)

(** Modelled from the spec: the wire format of a scalar, a fixed number of
    bytes; the byte order is that of CANopen, least significant byte
    first.  The sources hold no serialisation code. *)
Definition byte_of_Z (z : Z) : byte :=
  default x00 (Byte.of_N (Z.to_N (z mod 256))).

(** Modelled from the spec: the number a wire byte stands for. *)
Definition Z_of_byte (b : byte) : Z := Z.of_N (Byte.to_N b).

(** Modelled from the spec: a value on the wire in [n] bytes, least
    significant byte first; higher bytes of the value are cut off. *)
Fixpoint encode_le (n : nat) (z : Z) : list byte :=
  match n with
  | O => []
  | S m => byte_of_Z z :: encode_le m (z / 256)
  end.

(** Modelled from the spec: the unsigned value of wire bytes, least
    significant byte first. *)
Fixpoint decode_le (bs : list byte) : Z :=
  match bs with
  | [] => 0
  | b :: rest => Z_of_byte b + 256 * decode_le rest
  end.

(** Modelled from the spec: the value of wire bytes in the value range of
    the data width: two's complement for a signed width. *)
Definition decode_value (signed : bool) (bs : list byte) : Z :=
  let u := decode_le bs in
  let m := 256 ^ Z.of_nat (length bs) in
  if signed && (m <=? 2 * u) then u - m else u.

(** ** State of the registry *)

(** Modelled from the spec: what the host supplies at start-up and what
    the missing headers define: the node identifier of the configuration
    bundle (section 6), the values of the two COB-id macros and of the
    [db::eIndex] enumerators. *)
Record environment : Type := mkEnv {
  node_id : Z;
  cobid_sdo_request : Z;
  cobid_sdo_response : Z;
  eindex_value : string → Z
}.

(** Modelled from the spec: the mutable value slots behind the immutable
    table (section 3, lifecycle).  [slots] is the storage embedded in the
    descriptors: the value of an inline-mutable entry, and the cached
    value of a deferred entry once it is resolved (an absent key is an
    entry not yet resolved).  [memory] holds the externally owned
    objects that pointer entries refer to, [store] the external
    key-value backing store. *)
Record registry : Type := mkRegistry {
  slots : gmap (Z * Z) Z;
  memory : gmap string (list byte);
  store : gmap string Z
}.

(** The objects whose contents the sources give: the two strings, with
    their terminator. *)
Definition static_memory : gmap string (list byte) :=
  {[ "k_device_name"%string := String.list_byte_of_string k_device_name ++ [x00];
     "k_device_hw_version"%string := String.list_byte_of_string k_device_hw_version ++ [x00] ]}.

(** Modelled from the spec: the registry at start-up: nothing resolved;
    [db] is the backing store and [mem] the objects whose contents come
    from build macros. *)
Definition registry_init (db : gmap string Z) (mem : gmap string (list byte)) : registry :=
  mkRegistry ∅ (static_memory ∪ mem) db.

(** ** Dictionary Table: lookup *)

(** Modelled from the spec: [find(key) -> Entry Descriptor or NotFound]
    (section 4.1), lookup by key over the used objects of the table; the
    sources hold no lookup code. *)
Fixpoint find_in (l : list CO_OBJ_T) (k : Z * Z) : result CO_OBJ_T :=
  match l with
  | [] => Err NotFound
  | o :: rest => if decide (obj_key o = k) then Ok o else find_in rest k
  end.

(** Modelled from the spec: [find] on the table as the stack receives
    it. *)
Definition find (dict : list co_dict_row) (idx sub : Z) : result CO_OBJ_T :=
  find_in (used_objects dict) (idx, sub).

(** Modelled from the spec: the binary search over a key-sorted table that
    section 4.1 asks for.  The search keeps a window [lo, hi) of
    positions; [fuel] bounds the number of probes. *)
Fixpoint bsearch (fuel : nat) (l : list CO_OBJ_T) (lo hi : nat) (k : Z * Z)
  : result CO_OBJ_T :=
  match fuel with
  | O => Err NotFound
  | S fuel' =>
    if (lo <? hi)%nat then
      let mid := ((lo + hi) / 2)%nat in
      match l !! mid with
      | None => Err NotFound
      | Some o =>
        match key_compare (obj_key o) k with
        | Eq => Ok o
        | Lt => bsearch fuel' l (S mid) hi k
        | Gt => bsearch fuel' l lo mid k
        end
      end
    else Err NotFound
  end.

(** Modelled from the spec: [find] by binary search. *)
Definition find_sorted (dict : list co_dict_row) (idx sub : Z) : result CO_OBJ_T :=
  let l := used_objects dict in
  bsearch (length l) l 0 (length l) (idx, sub).

(** Modelled from the spec: the metadata interface
    [describe(index, subindex)] of section 6, a lookup in the map. *)
Definition describe (idx sub : Z) : result ODEntryValue :=
  match OBJECT_DICTIONARY !! (idx, sub) with
  | Some v => Ok v
  | None => Err NotFound
  end.

(** ** Storage Resolver *)

(** The value a direct row holds in [Data], with the node id added when
    the row asks for it. *)
Definition data_value (env : environment) (d : co_data) : Z :=
  match d with
  | Lit v => v
  | eIndex n => eindex_value env n
  | CO_COBID_SDO_REQUEST => cobid_sdo_request env
  | CO_COBID_SDO_RESPONSE => cobid_sdo_response env
  end.

Definition inline_value (env : environment) (o : CO_OBJ_T) : Z :=
  data_value env (Data o) + (if adds_nodeid o then node_id env else 0).

(** The backing-store key a deferred row carries in [Data]. *)
Definition external_key (o : CO_OBJ_T) : option string :=
  match Data o with
  | eIndex n => Some n
  | _ => None
  end.

(** Modelled from the spec: the addressable value slot of section 4.2:
    the descriptor's own embedded storage (constant or mutable), the
    address registered in the table, or the inline cache of a value that
    the backing store supplies. *)
Inductive slot : Type :=
  | embedded_constant (v : Z)
  | embedded (k : Z * Z) (initial : Z)
  | external (p : VoidPtr)
  | cached (k : Z * Z) (ext : option string).

(** Modelled from the spec: [resolve(descriptor)] of section 4.2. *)
Definition resolve (env : environment) (o : CO_OBJ_T) : slot :=
  match storage_mode_of o with
  | inline_constant => embedded_constant (inline_value env o)
  | inline_mutable => embedded (obj_key o) (inline_value env o)
  | pointer_to_external => external (DataPtr o)
  | deferred_backing_store => cached (obj_key o) (external_key o)
  end.

(** Modelled from the spec: the one-time resolution of a deferred slot
    (sections 4.2 and 4.4): at first touch the backing store is queried
    and the answer cached; when the query fails the slot falls back to
    zero and the failure is reported.  Other slots need no resolution. *)
Definition initialize (st : registry) (s : slot) : registry * option error :=
  match s with
  | cached k ext =>
    match slots st !! k with
    | Some _ => (st, None)
    | None =>
      match ext ≫= (λ e, store st !! e) with
      | Some v => (mkRegistry (<[k := v]> (slots st)) (memory st) (store st), None)
      | None =>
        (mkRegistry (<[k := 0]> (slots st)) (memory st) (store st),
         Some BackingStoreUnavailable)
      end
    end
  | _ => (st, None)
  end.

(** Modelled from the spec: reading a pointer-to-external slot: [w] bytes
    at element [off] of the named object, zero where the object holds no
    byte; a pointer that names no object has no memory behind it.  The
    sources hold no access code. *)
Definition mem_read (m : gmap string (list byte)) (p : VoidPtr) (w : nat) : list byte :=
  match p with
  | Addr object off => take w (drop (off * w) (default [] (m !! object)) ++ replicate w x00)
  | _ => replicate w x00
  end.

(** Modelled from the spec: the bytes of an object after [payload] is
    copied to position [pos]. *)
Definition overwrite (pos : nat) (payload bs : list byte) : list byte :=
  take pos (bs ++ replicate pos x00) ++ payload ++ drop (pos + length payload) bs.

(** Modelled from the spec: writing a pointer-to-external slot; a pointer
    that names no object takes no bytes. *)
Definition mem_write (m : gmap string (list byte)) (p : VoidPtr) (payload : list byte)
  : gmap string (list byte) :=
  match p with
  | Addr object off =>
    <[object := overwrite (off * length payload) payload (default [] (m !! object))]> m
  | _ => m
  end.

(** Modelled from the spec: raw access to a slot, a direct byte copy that
    respects the data width (section 4.3 c).  A write to a deferred slot
    updates the cache and is passed on to the backing store with [set]
    (section 6). *)
Definition slot_read (st : registry) (s : slot) (w : nat) : list byte :=
  match s with
  | embedded_constant v => encode_le w v
  | embedded k initial => encode_le w (default initial (slots st !! k))
  | external p => mem_read (memory st) p w
  | cached k _ => encode_le w (default 0 (slots st !! k))
  end.

(** Modelled from the spec: the raw write to a slot, see [slot_read]; an
    inline constant is never written. *)
Definition slot_write (st : registry) (s : slot) (signed : bool) (payload : list byte)
  : registry :=
  match s with
  | embedded_constant _ => st
  | embedded k _ =>
    mkRegistry (<[k := decode_value signed payload]> (slots st))
               (memory st) (store st)
  | external p =>
    mkRegistry (slots st) (mem_write (memory st) p payload) (store st)
  | cached k ext =>
    mkRegistry (<[k := decode_value signed payload]> (slots st))
               (memory st)
               (match ext with
                | Some e => <[e := decode_value signed payload]> (store st)
                | None => store st
                end)
  end.

(** ** Type/Handler Registry *)

(** Modelled from the spec: the bytes of a string buffer up to its
    terminator. *)
Fixpoint until_nul (bs : list byte) : list byte :=
  match bs with
  | [] => []
  | x00 :: _ => []
  | b :: rest => b :: until_nul rest
  end.

(** Modelled from the spec: the string-table accessor (section 4.3 a):
    the row points to an element of [manuf_data], which gives the buffer
    and the offset to read from.  The terminator is left out of the
    reported bytes (the spec leaves this open).  The buffers are
    constants of the sources. *)
Definition string_read (st : registry) (o : CO_OBJ_T) : list byte :=
  match DataPtr o with
  | Addr object i =>
    if decide (object = "manuf_data"%string) then
      match manuf_data !! i with
      | Some (off, start) =>
        until_nul (drop (Z.to_nat off) (default [] (memory st !! start)))
      | None => []
      end
    else []
  | _ => []
  end.

(** Modelled from the spec: the stored sequence of a counter entry: the
    value its slot holds, read as an unsigned number of the data width.
    For a row flagged [INIT_FROM_DB_FLAG] this is the value initialised
    from the database at first touch; before that it is the default
    zero. *)
Definition sequence_of (env : environment) (st : registry) (o : CO_OBJ_T) : Z :=
  decode_le (slot_read st (resolve env o) (obj_width o)).

(** Modelled from the spec: the monotonic-counter accessor (section
    4.3 b): a write does not store the written value; it adds 1 to the
    sequence held in the slot of the entry, within the value range of
    the data width (after the largest value comes zero), and stores the
    result the way a raw write does, which for a deferred entry is the
    action on the backing store, its [set]. *)
Definition counter_write (env : environment) (st : registry) (o : CO_OBJ_T) : registry :=
  slot_write st (resolve env o) (obj_signed o)
             (encode_le (obj_width o) (sequence_of env st o + 1)).

(** Modelled from the spec: [handler.size(descriptor)] of the callback
    triple of section 4.3: the length of the string, or the data width. *)
Definition handler_size (st : registry) (o : CO_OBJ_T) : nat :=
  match handler_of o with
  | string_table => length (string_read st o)
  | monotonic_counter | plain_scalar => obj_width o
  end.

(** Modelled from the spec: [handler.read(descriptor) -> bytes]. *)
Definition handler_read (env : environment) (st : registry) (o : CO_OBJ_T) : list byte :=
  match handler_of o with
  | string_table => string_read st o
  | monotonic_counter | plain_scalar => slot_read st (resolve env o) (obj_width o)
  end.

(** Modelled from the spec: [handler.write(descriptor, bytes) -> Result];
    the string buffers are constants and take no write. *)
Definition handler_write (env : environment) (st : registry) (o : CO_OBJ_T)
    (payload : list byte) : result registry :=
  match handler_of o with
  | string_table => Err AccessDenied
  | monotonic_counter => Ok (counter_write env st o)
  | plain_scalar => Ok (slot_write st (resolve env o) (obj_signed o) payload)
  end.

(** ** Access Mediator *)

(** Modelled from the spec: the permission check of section 4.4: the
    requested operation must be in the access set of the entry. *)
Definition permitted (a : option access) (op : operation) : bool :=
  match a, op with
  | Some read_only, READ => true
  | Some write_only, WRITE => true
  | Some read_write, _ => true
  | _, _ => false
  end.

(** Modelled from the spec: a request that completes after a failed
    resolution reports that failure (section 4.4). *)
Definition complete {A} (failure : option error) (a : A) : result A :=
  match failure with
  | None => Ok a
  | Some e => Err e
  end.

(** Modelled from the spec: [handle_request(index, subindex, operation,
    payload) -> Result<payload>] (section 6), the state machine of
    section 4.4: lookup, permission check, resolution of a deferred slot,
    size check of the wire bytes of a write, transfer through the
    handler.  The new registry is returned with the result; a completed
    write answers with an empty payload. *)
Definition handle_request (env : environment) (dict : list co_dict_row) (st : registry)
    (idx sub : Z) (op : operation) (payload : list byte)
  : registry * result (list byte) :=
  match find dict idx sub with
  | Err e => (st, Err e)
  | Ok o =>
    if negb (permitted (access_of o) op) then (st, Err AccessDenied)
    else
      let '(st1, failure) := initialize st (resolve env o) in
      match op with
      | READ => (st1, complete failure (handler_read env st1 o))
      | WRITE =>
        if negb (length payload =? handler_size st1 o)%nat then (st1, Err SizeMismatch)
        else
          match handler_write env st1 o payload with
          | Ok st2 => (st2, complete failure [])
          | Err e => (st1, Err e)
          end
      end
  end.

(** ** Building the table *)

#[global] Instance co_dict_row_eq_dec : EqDecision co_dict_row.
Proof. solve_decision. Defined.

(** Modelled from the spec: the sub-index-0 check of section 4.1: for an
    index with sub-entries, the value stored inline at sub-index 0 is the
    number of distinct sub-indices greater than 0 of that index. *)
Definition counts_match (l : list CO_OBJ_T) : Prop :=
  Forall (λ idx, subindices_above_0 l idx ≠ [] →
                 inline_subindex_0 l idx =
                   Some (Z.of_nat (length (subindices_above_0 l idx))))
         (indices l).

(** Modelled from the spec: the sentinel is present exactly once, at the
    end (section 4.1). *)
Definition sentinel_at_end (t : list co_dict_row) : Prop :=
  last t = Some CO_OBJ_DIR_ENDMARK ∧
  length (filter (λ r, r = CO_OBJ_DIR_ENDMARK) t) = 1%nat.

(** Modelled from the spec: building the table (section 4.1) validates
    that no key is repeated, that the sentinel is present exactly once at
    the end and that every sub-index-0 count matches, and fails with
    [BuildError] otherwise.  The sources initialise [co_dict] statically
    and hold no such check. *)
Definition build (t : list co_dict_row) : result (list CO_OBJ_T) :=
  let l := used_objects t in
  if decide (NoDup (map obj_key l) ∧ sentinel_at_end t ∧ counts_match l)
  then Ok l
  else Err BuildError.

(** * Part III: properties *)

(** Deciding a closed proposition by evaluation. *)
Ltac by_evaluation := apply (bool_decide_unpack _); vm_compute; exact I.

(** A property of every element of a concrete list, by evaluation. *)
Ltac for_each_element :=
  match goal with
  | |- ∀ x, x ∈ ?l → @?P x => apply (proj1 (Forall_forall P l)); by_evaluation
  end.

(** ** Keys and lookup *)

Section Lookup.
Implicit Types (l : list CO_OBJ_T) (o : CO_OBJ_T) (k : Z * Z).

Lemma key_compare_Eq a b : key_compare a b = Eq ↔ a = b.
Proof.
  destruct a as [a1 a2], b as [b1 b2]. unfold key_compare; simpl.
  destruct (Z.compare_spec a1 b1) as [E1|L1|G1], (Z.compare_spec a2 b2) as [E2|L2|G2];
    split; intros Hc; try discriminate Hc; try reflexivity;
    try (injection Hc as ? ?; lia); subst; reflexivity.
Qed.

Lemma key_compare_Lt a b : key_compare a b = Lt ↔ key_lt a b.
Proof.
  destruct a as [a1 a2], b as [b1 b2]. unfold key_compare, key_lt; simpl.
  destruct (Z.compare_spec a1 b1) as [E1|L1|G1], (Z.compare_spec a2 b2) as [E2|L2|G2];
    split; intros Hc; try discriminate Hc; try reflexivity; lia.
Qed.

Lemma key_compare_Gt a b : key_compare a b = Gt ↔ key_lt b a.
Proof.
  destruct a as [a1 a2], b as [b1 b2]. unfold key_compare, key_lt; simpl.
  destruct (Z.compare_spec a1 b1) as [E1|L1|G1], (Z.compare_spec a2 b2) as [E2|L2|G2];
    split; intros Hc; try discriminate Hc; try reflexivity; lia.
Qed.

Lemma key_lt_irrefl a : ¬ key_lt a a.
Proof. unfold key_lt. lia. Qed.

Lemma key_lt_trans a b c : key_lt a b → key_lt b c → key_lt a c.
Proof. unfold key_lt. lia. Qed.

(** What a successful scan returns. *)
Lemma find_in_Ok l k o : find_in l k = Ok o → o ∈ l ∧ obj_key o = k.
Proof.
  induction l as [|a l IH]; simpl; [discriminate|].
  destruct (decide (obj_key a = k)) as [Hk|Hk].
  - intros [= <-]. split; [left | exact Hk].
  - intros H. destruct (IH H) as [Hin Hkey]. split; [by right | exact Hkey].
Qed.

Lemma find_in_error l k e : find_in l k = Err e → e = NotFound.
Proof.
  induction l as [|a l IH]; simpl; [by intros [= <-]|].
  destruct (decide (obj_key a = k)); [discriminate | exact IH].
Qed.

Lemma find_in_absent l k :
  (∀ o, o ∈ l → obj_key o ≠ k) → find_in l k = Err NotFound.
Proof.
  induction l as [|a l IH]; simpl; intros H; [reflexivity|].
  destruct (decide (obj_key a = k)) as [Hk|Hk].
  - exfalso. apply (H a); [left | exact Hk].
  - apply IH. intros o Ho. apply H. by right.
Qed.

Lemma find_in_present l k o :
  NoDup (map obj_key l) → o ∈ l → obj_key o = k → find_in l k = Ok o.
Proof.
  induction l as [|a l IH]; simpl; intros Hnd Hin Hk.
  - by apply elem_of_nil in Hin.
  - apply NoDup_cons in Hnd as [Hna Hnd].
    apply elem_of_cons in Hin as [->|Hin].
    + by rewrite decide_True.
    + rewrite decide_False; [by apply IH|].
      intros Ha. apply Hna. rewrite Ha, <- Hk.
      apply (list_elem_of_fmap_2 obj_key), Hin.
Qed.

Lemma sorted_keys_NoDup (ks : list (Z * Z)) : StronglySorted key_lt ks → NoDup ks.
Proof.
  induction 1 as [|a ks Hs IH Hall]; constructor; [|exact IH].
  intros Hin. rewrite Forall_forall in Hall.
  exact (key_lt_irrefl a (Hall a Hin)).
Qed.

(** In a sorted table a later position holds a larger key. *)
Lemma sorted_lookup_lt l i j a b :
  StronglySorted key_lt (map obj_key l) →
  l !! i = Some a → l !! j = Some b → (i < j)%nat →
  key_lt (obj_key a) (obj_key b).
Proof.
  intros Hs. revert i j. induction l as [|x l IH]; intros i j Hi Hj Hlt.
  - by rewrite lookup_nil in Hi.
  - simpl in Hs. apply StronglySorted_inv in Hs as [Hs Hall].
    destruct j as [|j]; [lia|]. simpl in Hj.
    destruct i as [|i]; simpl in Hi.
    + injection Hi as ->. rewrite Forall_forall in Hall. apply Hall.
      apply (list_elem_of_fmap_2 obj_key). by eapply list_elem_of_lookup_2.
    + apply (IH Hs i j); [done | done | lia].
Qed.

Lemma bsearch_find_in l k fuel lo hi :
  StronglySorted key_lt (map obj_key l) →
  (hi ≤ length l)%nat → (hi - lo ≤ fuel)%nat →
  (∀ i o, l !! i = Some o → obj_key o = k → (lo ≤ i < hi)%nat) →
  bsearch fuel l lo hi k = find_in l k.
Proof.
  intros Hs. revert lo hi. induction fuel as [|fuel IH]; intros lo hi Hhi Hfuel Hwin.
  - simpl. symmetry. apply find_in_absent. intros o Ho Hk.
    apply list_elem_of_lookup in Ho as [i Hi]. specialize (Hwin i o Hi Hk). lia.
  - cbn [bsearch]. destruct (Nat.ltb_spec lo hi) as [Hlt|Hge].
    + pose proof (Nat.div_mod_eq (lo + hi) 2) as Hdiv.
      pose proof (Nat.mod_upper_bound (lo + hi) 2) as Hmod.
      set (mid := ((lo + hi) / 2)%nat) in *.
      assert (lo ≤ mid < hi)%nat as Hmid by lia.
      destruct (lookup_lt_is_Some_2 l mid) as [o Ho]; [lia|].
      rewrite Ho. destruct (key_compare (obj_key o) k) eqn:Hc.
      * apply key_compare_Eq in Hc. symmetry.
        apply find_in_present; [by apply sorted_keys_NoDup | | done].
        by eapply list_elem_of_lookup_2.
      * apply key_compare_Lt in Hc. apply IH; [lia | lia |].
        intros i o' Hi Hk. specialize (Hwin i o' Hi Hk).
        destruct (decide (i ≤ mid)%nat) as [Hle|Hgt]; [|lia].
        exfalso. destruct (decide (i = mid)) as [->|Hne].
        -- rewrite Ho in Hi. injection Hi as ->. rewrite Hk in Hc.
           by apply key_lt_irrefl in Hc.
        -- pose proof (sorted_lookup_lt l i mid o' o Hs Hi Ho ltac:(lia)) as Hlt'.
           rewrite Hk in Hlt'. exact (key_lt_irrefl _ (key_lt_trans _ _ _ Hlt' Hc)).
      * apply key_compare_Gt in Hc. apply IH; [lia | lia |].
        intros i o' Hi Hk. specialize (Hwin i o' Hi Hk).
        destruct (decide (i < mid)%nat) as [Hle|Hgt]; [lia|].
        exfalso. destruct (decide (i = mid)) as [->|Hne].
        -- rewrite Ho in Hi. injection Hi as ->. rewrite Hk in Hc.
           by apply key_lt_irrefl in Hc.
        -- pose proof (sorted_lookup_lt l mid i o o' Hs Ho Hi ltac:(lia)) as Hlt'.
           rewrite Hk in Hlt'. exact (key_lt_irrefl _ (key_lt_trans _ _ _ Hlt' Hc)).
    + symmetry. apply find_in_absent. intros o Ho Hk.
      apply list_elem_of_lookup in Ho as [i Hi]. specialize (Hwin i o Hi Hk). lia.
Qed.
End Lookup.

(** ** Wire values *)

Section Wire.
Implicit Types (b : byte) (bs : list byte) (z : Z).

Lemma Z_of_byte_range b : 0 ≤ Z_of_byte b < 256.
Proof.
  unfold Z_of_byte. pose proof (Byte.to_N_bounded b). lia.
Qed.

Lemma byte_of_Z_of_byte b : byte_of_Z (Z_of_byte b) = b.
Proof.
  unfold byte_of_Z. rewrite Z.mod_small by apply Z_of_byte_range.
  unfold Z_of_byte. rewrite N2Z.id, Byte.of_to_N. reflexivity.
Qed.

Lemma byte_of_Z_mod z c : byte_of_Z (z + 256 * c) = byte_of_Z z.
Proof.
  unfold byte_of_Z. rewrite (Z.mul_comm 256 c), Z.mod_add by lia. reflexivity.
Qed.

Lemma encode_decode_le bs : encode_le (length bs) (decode_le bs) = bs.
Proof.
  induction bs as [|b bs IH]; simpl; [reflexivity|].
  rewrite byte_of_Z_mod, byte_of_Z_of_byte. f_equal.
  rewrite (Z.mul_comm 256), Z.div_add by lia.
  rewrite Z.div_small by apply Z_of_byte_range. exact IH.
Qed.

Lemma encode_le_shift n z c : encode_le n (z + c * 256 ^ Z.of_nat n) = encode_le n z.
Proof.
  revert z c. induction n as [|n IH]; intros z c; [reflexivity|].
  cbn [encode_le]. rewrite Nat2Z.inj_succ, Z.pow_succ_r by lia.
  replace (z + c * (256 * 256 ^ Z.of_nat n)) with (z + 256 * (c * 256 ^ Z.of_nat n)) by lia.
  rewrite byte_of_Z_mod. f_equal.
  rewrite (Z.mul_comm 256), Z.div_add by lia. apply IH.
Qed.


(** Writing a value and reading it back in the same width gives the
    bytes that were written, for both signednesses. *)
Lemma encode_decode_value signed bs :
  encode_le (length bs) (decode_value signed bs) = bs.
Proof.
  unfold decode_value.
  destruct (signed && (256 ^ Z.of_nat (length bs) <=? 2 * decode_le bs)).
  - replace (decode_le bs - 256 ^ Z.of_nat (length bs))
      with (decode_le bs + (-1) * 256 ^ Z.of_nat (length bs)) by lia.
    rewrite encode_le_shift. apply encode_decode_le.
  - apply encode_decode_le.
Qed.



End Wire.

(** ** The table [co_dict] *)

Lemma used_objects_sorted :
  StronglySorted key_lt (map obj_key (used_objects co_dict)).
Proof. by_evaluation. Qed.

Lemma used_objects_NoDup : NoDup (map obj_key (used_objects co_dict)).
Proof. apply sorted_keys_NoDup, used_objects_sorted. Qed.

(** The table has 261 objects and the end mark. *)
Example k_dict_size_262 : k_dict_size = 262%nat ∧ length (used_objects co_dict) = 261%nat.
Proof. split; reflexivity. Qed.

(** The key of an object of the table finds that object. *)
Lemma find_own_key (o : CO_OBJ_T) :
  o ∈ used_objects co_dict → find co_dict (obj_key o).1 (obj_key o).2 = Ok o.
Proof.
  intros Hin. unfold find. rewrite <- surjective_pairing.
  by apply find_in_present; [apply used_objects_NoDup | |].
Qed.

(** C8: the objects of [co_dict] before the end mark are in strictly
    increasing order of (index, subindex); hence no key occurs twice, and
    the binary search over the table returns what the scan by key
    returns, for every key. *)
Theorem co_dict_sorted_by_key :
  StronglySorted key_lt (map obj_key (used_objects co_dict)) ∧
  NoDup (map obj_key (used_objects co_dict)) ∧
  ∀ idx sub, find_sorted co_dict idx sub = find co_dict idx sub.
Proof.
  split; [exact used_objects_sorted|]. split; [exact used_objects_NoDup|].
  intros idx sub. unfold find_sorted, find.
  apply bsearch_find_in; [exact used_objects_sorted | lia | lia |].
  intros i o Hi _. apply lookup_lt_Some in Hi. lia.
Qed.

(** C3: for a key that is present in [co_dict], [find] returns the
    descriptor with exactly that (index, subindex), and no other object
    of the table has this key; for a key that no object has, [find]
    returns [NotFound]. *)
Theorem find_returns_the_entry (idx sub : Z) :
  (∀ o, o ∈ used_objects co_dict → obj_key o = (idx, sub) →
     find co_dict idx sub = Ok o ∧
     ∀ o', o' ∈ used_objects co_dict → obj_key o' = (idx, sub) → o' = o) ∧
  ((∀ o, o ∈ used_objects co_dict → obj_key o ≠ (idx, sub)) →
     find co_dict idx sub = Err NotFound).
Proof.
  split.
  - intros o Hin Hk.
    assert (∀ o', o' ∈ used_objects co_dict → obj_key o' = (idx, sub) →
                  find co_dict idx sub = Ok o') as Hfind.
    { intros o' Hin' Hk'. by apply find_in_present; [apply used_objects_NoDup | |]. }
    split; [by apply Hfind|].
    intros o' Hin' Hk'. pose proof (Hfind o Hin Hk) as H1.
    rewrite (Hfind o' Hin' Hk') in H1. by injection H1.
  - intros Habs. by apply find_in_absent.
Qed.

Lemma find_returns_the_entry_witness :
  find co_dict 0x2117 9 =
    Ok (mkObj (CO_KEY 0x2117 9 [CO_UNSIGNED16; CO_OBJ____RW]) None
              (eIndex "BRAKE_SOL_ACCUM_REAR_MANUAL_CTRL") nullptr INIT_FROM_DB_FLAG) ∧
  find co_dict 0x2117 7 = Err NotFound.
Proof.
  split.
  - apply (proj1 (find_returns_the_entry 0x2117 9)); [by_evaluation | reflexivity].
  - apply (proj2 (find_returns_the_entry 0x2117 7)). for_each_element.
Defined.

(** The same holds of the metadata interface: [describe] returns the
    value the map holds for the key, and [NotFound] for any other key. *)
Lemma describe_lookup (idx sub : Z) :
  (∀ v, OBJECT_DICTIONARY !! (idx, sub) = Some v → describe idx sub = Ok v) ∧
  (OBJECT_DICTIONARY !! (idx, sub) = None → describe idx sub = Err NotFound).
Proof. unfold describe. split; [intros v ->|intros ->]; reflexivity. Qed.

(** C1 fails as stated.  Index 0x2117 stores 15 at sub-index 0 and lists
    the 13 sub-indices 1-6 and 9-15; index 0x1000 stores the device type
    0x198 at sub-index 0 and lists no other sub-index. *)
Lemma subindex_0_count_fails :
  (0x2117 ∈ indices (used_objects co_dict) ∧
   inline_subindex_0 (used_objects co_dict) 0x2117 = Some 15 ∧
   subindices_above_0 (used_objects co_dict) 0x2117 =
     [1; 2; 3; 4; 5; 6; 9; 10; 11; 12; 13; 14; 15] ∧
   length (subindices_above_0 (used_objects co_dict) 0x2117) = 13%nat) ∧
  (0x1000 ∈ indices (used_objects co_dict) ∧
   inline_subindex_0 (used_objects co_dict) 0x1000 = Some 0x198 ∧
   length (subindices_above_0 (used_objects co_dict) 0x1000) = 0%nat).
Proof. repeat split; try by_evaluation; vm_compute; reflexivity. Qed.

(** C1, amended: for every index of [co_dict] that lists at least one
    sub-index greater than 0, except 0x2117, the value stored inline at
    sub-index 0 is the number of distinct sub-indices greater than 0 of
    that index. *)
Theorem subindex_0_counts_composite (idx : Z) :
  idx ∈ indices (used_objects co_dict) →
  subindices_above_0 (used_objects co_dict) idx ≠ [] →
  idx ≠ 0x2117 →
  inline_subindex_0 (used_objects co_dict) idx =
    Some (Z.of_nat (length (subindices_above_0 (used_objects co_dict) idx))).
Proof. revert idx. for_each_element. Qed.

Lemma subindex_0_counts_composite_witness :
  0x2116 ∈ indices (used_objects co_dict) ∧
  inline_subindex_0 (used_objects co_dict) 0x2116 = Some 23 ∧
  length (subindices_above_0 (used_objects co_dict) 0x2116) = 23%nat.
Proof.
  split; [by_evaluation|]. split; [|reflexivity].
  apply (subindex_0_counts_composite 0x2116); [by_evaluation | by_evaluation | lia].
Defined.

(** At 0x2117 the stored 15 is the highest sub-index listed. *)
Example subindex_0_of_2117 :
  inline_subindex_0 (used_objects co_dict) 0x2117 =
    Some (foldr Z.max 0 (subindices_above_0 (used_objects co_dict) 0x2117)).
Proof. reflexivity. Qed.

Lemma external_key_Some (o : CO_OBJ_T) :
  is_Some (external_key o) → ∃ n, Data o = eIndex n.
Proof.
  unfold external_key. destruct (Data o) as [v|n| |]; intros [x Hx];
    try discriminate Hx. by exists n.
Qed.

(** C10: an object of [co_dict] carries [INIT_FROM_DB_FLAG] exactly when
    its [DataPtr] is the literal [nullptr]; such an object holds a
    [db::eIndex] enumerator in [Data] and has no direct-access flag in
    its key. *)
Theorem init_from_db_iff_nullptr (o : CO_OBJ_T) :
  o ∈ used_objects co_dict →
  (ExtraFlags o = INIT_FROM_DB_FLAG ↔ DataPtr o = nullptr) ∧
  (ExtraFlags o = INIT_FROM_DB_FLAG →
     (∃ n, Data o = eIndex n) ∧ is_direct o = false).
Proof.
  intros Hin.
  assert (∀ o, o ∈ used_objects co_dict →
            (ExtraFlags o = INIT_FROM_DB_FLAG ↔ DataPtr o = nullptr) ∧
            (ExtraFlags o = INIT_FROM_DB_FLAG →
               is_Some (external_key o) ∧ is_direct o = false)) as Hall
    by for_each_element.
  destruct (Hall o Hin) as [Hiff Hdb]. split; [exact Hiff|].
  intros Hflag. destruct (Hdb Hflag) as [Hkey Hdir].
  split; [by apply external_key_Some | exact Hdir].
Qed.

Lemma init_from_db_iff_nullptr_witness :
  let o := mkObj (CO_KEY 0x1017 0 [CO_UNSIGNED16; CO_OBJ____R_]) None
                 (eIndex "CO_PRODUCER_HB") nullptr INIT_FROM_DB_FLAG in
  o ∈ used_objects co_dict ∧
  (ExtraFlags o = INIT_FROM_DB_FLAG ↔ DataPtr o = nullptr) ∧
  (ExtraFlags o = INIT_FROM_DB_FLAG →
     (∃ n, Data o = eIndex n) ∧ is_direct o = false).
Proof.
  intros o. split; [by_evaluation|].
  apply (init_from_db_iff_nullptr o). by_evaluation.
Defined.

(** The rows without the flag hold the literal [0] or the address of an
    object in [DataPtr]. *)
Lemma pointer_rows_have_address (o : CO_OBJ_T) :
  o ∈ used_objects co_dict → storage_mode_of o = pointer_to_external →
  ∃ object off, DataPtr o = Addr object off.
Proof.
  intros Hin Hmode.
  assert (∀ o, o ∈ used_objects co_dict → storage_mode_of o = pointer_to_external →
            DataPtr o ≠ Zero ∧ DataPtr o ≠ nullptr) as Hall by for_each_element.
  destruct (Hall o Hin Hmode) as [Hz Hn].
  destruct (DataPtr o) as [| |object off]; [done | done | by exists object, off].
Qed.

(** ** The map [OBJECT_DICTIONARY] *)

(** C9: in [OBJECT_DICTIONARY] an entry of display type [OD_FUNC] has
    monitorable false and an entry of any other display type has
    monitorable true. *)
Theorem monitorable_iff_not_func (k : ODEntryKey) (v : ODEntryValue) :
  OBJECT_DICTIONARY !! k = Some v →
  (od_type v = OD_FUNC → od_monitorable v = false) ∧
  (od_type v ≠ OD_FUNC → od_monitorable v = true).
Proof.
  revert k v.
  change (map_Forall (λ _ v, (od_type v = OD_FUNC → od_monitorable v = false) ∧
                             (od_type v ≠ OD_FUNC → od_monitorable v = true))
                     OBJECT_DICTIONARY).
  by_evaluation.
Qed.

Lemma monitorable_iff_not_func_witness :
  let v := ODEntry "NULL" "NULL" "END_OF_OD" EmptyString OD_FUNC false false in
  OBJECT_DICTIONARY !! (0xFFFF, 0xFF) = Some v ∧
  (od_type v = OD_FUNC → od_monitorable v = false) ∧
  (od_type v ≠ OD_FUNC → od_monitorable v = true).
Proof.
  intros v. split; [vm_compute; reflexivity|].
  apply (monitorable_iff_not_func (0xFFFF, 0xFF) v). vm_compute; reflexivity.
Defined.

(** The map holds the 85 pairs of the initialiser list: no key is
    repeated there. *)
Example OBJECT_DICTIONARY_size :
  size OBJECT_DICTIONARY = 85%nat ∧ NoDup (OBJECT_DICTIONARY_init.*1).
Proof. split; [vm_compute; reflexivity | by_evaluation]. Qed.

(** C2 fails as stated.  The metadata key (0x2100, 0) is configurable,
    but the object of [co_dict] with this key is a direct read-only
    constant, so no object with this key is writable. *)
Lemma configurable_2100_0_not_writable :
  (∃ v, OBJECT_DICTIONARY !! (0x2100, 0x00) = Some v ∧ od_configurable v = true) ∧
  find co_dict 0x2100 0 =
    Ok (mkObj (CO_KEY 0x2100 0 [CO_UNSIGNED8; CO_OBJ_D__R_]) None (Lit 2) Zero
              NoExtraFlags) ∧
  ¬ ∃ o, o ∈ used_objects co_dict ∧ obj_key o = (0x2100, 0) ∧
         (access_of o = Some read_write ∨ access_of o = Some write_only).
Proof.
  split; [|split].
  - eexists. split; vm_compute; reflexivity.
  - reflexivity.
  - rewrite <- Exists_exists. by_evaluation.
Qed.

(** C2, amended: among the configurable keys of [OBJECT_DICTIONARY], the
    ones for which [co_dict] holds a read-write or write-only object are
    exactly (0x2100, 1), (0x2100, 2), (0x2101, 1), (0x2102, 1) and
    (0x2102, 2). *)
Theorem configurable_keys_with_writable_object (k : ODEntryKey) (v : ODEntryValue) :
  OBJECT_DICTIONARY !! k = Some v →
  od_configurable v = true →
  (∃ o, o ∈ used_objects co_dict ∧ obj_key o = k ∧
        (access_of o = Some read_write ∨ access_of o = Some write_only)) ↔
  k ∈ [(0x2100, 1); (0x2100, 2); (0x2101, 1); (0x2102, 1); (0x2102, 2)].
Proof.
  rewrite <- Exists_exists. revert k v.
  change (map_Forall
    (λ k v, od_configurable v = true →
       Exists (λ o, obj_key o = k ∧
                    (access_of o = Some read_write ∨ access_of o = Some write_only))
              (used_objects co_dict) ↔
       k ∈ [(0x2100, 1); (0x2100, 2); (0x2101, 1); (0x2102, 1); (0x2102, 2)])
    OBJECT_DICTIONARY).
  by_evaluation.
Qed.

Lemma configurable_keys_with_writable_object_witness :
  (∃ o, o ∈ used_objects co_dict ∧ obj_key o = (0x2101, 1) ∧
        (access_of o = Some read_write ∨ access_of o = Some write_only)) ↔
  (0x2101, 1) ∈ [(0x2100, 1); (0x2100, 2); (0x2101, 1); (0x2102, 1); (0x2102, 2)].
Proof.
  apply (configurable_keys_with_writable_object (0x2101, 1)
           (ODEntry "CONFIG" "MODEL_REGULATORS" "KP_SPEED" EmptyString OD_FLOAT32 true true));
    vm_compute; reflexivity.
Defined.

(** ** The access mediator *)

(** The lemmas of this section hold for any table and environment. *)
Section Mediator.
Context (env : environment) (dict : list co_dict_row).
Implicit Types (st : registry) (o : CO_OBJ_T) (payload : list byte).

Lemma write_denied st idx sub o payload :
  find dict idx sub = Ok o → access_of o = Some read_only →
  handle_request env dict st idx sub WRITE payload = (st, Err AccessDenied).
Proof. intros Hf Ha. unfold handle_request. rewrite Hf, Ha. reflexivity. Qed.

Lemma initialize_cases st s st1 failure :
  initialize st s = (st1, failure) →
  memory st1 = memory st ∧ store st1 = store st ∧
  (failure = None ∨ failure = Some BackingStoreUnavailable) ∧
  match s with
  | cached k _ => is_Some (slots st1 !! k)
  | _ => st1 = st
  end.
Proof.
  destruct s as [v|k v|p|k ext]; simpl; try (intros [= <- <-]; auto 10).
  destruct (slots st !! k) as [v|] eqn:Hk.
  - intros [= <- <-]. rewrite Hk. eauto 10.
  - destruct (ext ≫= _) as [v|]; intros [= <- <-]; simpl;
      rewrite lookup_insert_eq; eauto 10.
Qed.

Lemma initialize_resolved st k ext :
  is_Some (slots st !! k) → initialize st (cached k ext) = (st, None).
Proof. intros [v Hv]. simpl. by rewrite Hv. Qed.

Lemma mem_read_write m object off payload :
  mem_read (mem_write m (Addr object off) payload) (Addr object off) (length payload)
  = payload.
Proof.
  unfold mem_read, mem_write, overwrite. rewrite lookup_insert_eq. simpl.
  set (bs := default [] (m !! object)). set (pos := (off * length payload)%nat).
  rewrite drop_app_length'.
  - rewrite <- app_assoc. by rewrite take_app_length.
  - rewrite length_take, length_app, length_replicate. lia.
Qed.

Lemma access_read_write_permits o op :
  access_of o = Some read_write → permitted (access_of o) op = true.
Proof. intros ->. by destruct op. Qed.

Lemma read_write_is_writable o : access_of o = Some read_write → is_writable o = true.
Proof. unfold access_of. by destruct (is_readable o), (is_writable o). Qed.

(** Reading the slot of a descriptor right after a raw write to it. *)
Lemma slot_read_write st o payload :
  is_writable o = true →
  (storage_mode_of o = pointer_to_external → ∃ object off, DataPtr o = Addr object off) →
  slot_read (slot_write st (resolve env o) (obj_signed o) payload) (resolve env o)
            (length payload) = payload.
Proof.
  intros Hw Hptr. unfold resolve.
  destruct (storage_mode_of o) eqn:Hmode; simpl.
  - unfold storage_mode_of in Hmode. rewrite Hw in Hmode.
    destruct (is_direct o), (init_from_db o); discriminate Hmode.
  - rewrite lookup_insert_eq. apply encode_decode_value.
  - destruct (Hptr eq_refl) as (object & off & ->). apply mem_read_write.
  - rewrite lookup_insert_eq. apply encode_decode_value.
Qed.

Lemma slot_write_resolved st o signed payload :
  match resolve env o with
  | cached k _ => is_Some (slots (slot_write st (resolve env o) signed payload) !! k)
  | _ => True
  end.
Proof.
  destruct (resolve env o) as [v|k v|p|k ext]; simpl; try exact I.
  rewrite lookup_insert_eq. eauto.
Qed.

Lemma initialize_after_write st o signed payload :
  initialize (slot_write st (resolve env o) signed payload) (resolve env o)
  = (slot_write st (resolve env o) signed payload, None).
Proof.
  pose proof (slot_write_resolved st o signed payload) as H.
  destruct (resolve env o) as [v|k v|p|k ext]; try reflexivity.
  by apply initialize_resolved.
Qed.

Lemma write_then_read st idx sub o payload :
  find dict idx sub = Ok o →
  access_of o = Some read_write →
  handler_of o = plain_scalar →
  (storage_mode_of o = pointer_to_external → ∃ object off, DataPtr o = Addr object off) →
  length payload = obj_width o →
  let '(st1, r1) := handle_request env dict st idx sub WRITE payload in
  (r1 = Ok [] ∨ r1 = Err BackingStoreUnavailable) ∧
  ∀ p, handle_request env dict st1 idx sub READ p = (st1, Ok payload).
Proof.
  intros Hf Ha Hh Hptr Hlen. unfold handle_request. rewrite Hf.
  rewrite !access_read_write_permits by done. cbn [negb].
  destruct (initialize st (resolve env o)) as [st0 failure] eqn:Hinit.
  unfold handler_size, handler_write, handler_read. rewrite Hh, <- Hlen.
  rewrite Nat.eqb_refl. cbn [negb].
  split.
  - apply initialize_cases in Hinit as (_ & _ & [-> | ->] & _); [by left | by right].
  - intros p. rewrite initialize_after_write. cbn [complete].
    rewrite slot_read_write; [done | by apply read_write_is_writable | done].
Qed.




Lemma counter_size_mismatch st idx sub o payload :
  find dict idx sub = Ok o →
  permitted (access_of o) WRITE = true →
  handler_of o = monotonic_counter →
  length payload ≠ obj_width o →
  handle_request env dict st idx sub WRITE payload =
    ((initialize st (resolve env o)).1, Err SizeMismatch).
Proof.
  intros Hf Hp Hh Hlen. unfold handle_request. rewrite Hf, Hp. cbn [negb].
  destruct (initialize st (resolve env o)) as [st0 failure] eqn:Hinit.
  unfold handler_size. rewrite Hh.
  by destruct (Nat.eqb_spec (length payload) (obj_width o)) as [|_].
Qed.
End Mediator.

(** ** Requests on [co_dict] *)

(** C7: [co_dict] holds an object with key (0x1000, 0), unsigned 32-bit,
    read-only, direct, with the constant 0x198 in [Data]; a READ request
    for it returns bytes that decode to 0x198 and leaves the registry as
    it is, and a WRITE request returns [AccessDenied]. *)
Theorem device_type_entry :
  let o := mkObj (CO_KEY 0x1000 0 [CO_UNSIGNED32; CO_OBJ_D__R_]) None (Lit 0x198) Zero
                 NoExtraFlags in
  (find co_dict 0x1000 0 = Ok o ∧
   obj_size o = Some (4%nat, false) ∧
   access_of o = Some read_only ∧
   storage_mode_of o = inline_constant ∧
   Data o = Lit 0x198) ∧
  ∀ env st payload,
    (∃ bs, handle_request env co_dict st 0x1000 0 READ payload = (st, Ok bs) ∧
           decode_le bs = 0x198) ∧
    handle_request env co_dict st 0x1000 0 WRITE payload = (st, Err AccessDenied).
Proof.
  intros o. split; [repeat split|].
  intros env st payload. split.
  - exists (encode_le 4 0x198). split; reflexivity.
  - reflexivity.
Qed.

(** On the wire the device type is the four bytes 98 01 00 00. *)
Example device_type_bytes (env : environment) (st : registry) :
  handle_request env co_dict st 0x1000 0 READ [] = (st, Ok [x98; x01; x00; x00]).
Proof. reflexivity. Qed.

(** C4: a WRITE request for a read-only object of [co_dict] returns
    [AccessDenied], and the registry it returns is the registry it was
    given: no slot has changed. *)
Theorem write_read_only_denied (env : environment) (st : registry) (o : CO_OBJ_T)
    (payload : list byte) :
  o ∈ used_objects co_dict →
  access_of o = Some read_only →
  handle_request env co_dict st (obj_key o).1 (obj_key o).2 WRITE payload
  = (st, Err AccessDenied).
Proof.
  intros Hin Ha. apply write_denied with o; [by apply find_own_key | exact Ha].
Qed.

Lemma write_read_only_denied_witness :
  let o := mkObj (CO_KEY 0x2103 1 [CO_UNSIGNED32; CO_OBJ____R_]) None (Lit 0)
                 (Addr "k_commit_hash" 0) NoExtraFlags in
  let env := mkEnv 1 0x600 0x580 (λ _, 0) in
  let st := registry_init ∅ {[ "k_commit_hash"%string := [xef; xbe; xad; xde] ]} in
  o ∈ used_objects co_dict ∧
  access_of o = Some read_only ∧
  handle_request env co_dict st 0x2103 1 WRITE [x01; x02; x03; x04]
  = (st, Err AccessDenied).
Proof.
  intros o env st. split; [by_evaluation|]. split; [reflexivity|].
  apply (write_read_only_denied env st o [x01; x02; x03; x04]);
    [by_evaluation | reflexivity].
Defined.


Lemma read_write_objects (o : CO_OBJ_T) :
  o ∈ used_objects co_dict → access_of o = Some read_write →
  handler_of o ≠ monotonic_counter →
  handler_of o = plain_scalar ∧ storage_mode_of o = deferred_backing_store.
Proof. revert o. for_each_element. Qed.




(** C6: for every read-write object of [co_dict] that has no counter
    handler, a write of a payload of the width of the entry completes
    (reporting [BackingStoreUnavailable] when the first resolution of
    the entry found no value in the backing store), and a read of the
    same key right after it returns exactly the bytes written. *)
Theorem write_then_read_round_trip (env : environment) (st : registry) (o : CO_OBJ_T)
    (payload : list byte) :
  o ∈ used_objects co_dict →
  access_of o = Some read_write →
  handler_of o ≠ monotonic_counter →
  length payload = obj_width o →
  let '(st1, r1) :=
    handle_request env co_dict st (obj_key o).1 (obj_key o).2 WRITE payload in
  (r1 = Ok [] ∨ r1 = Err BackingStoreUnavailable) ∧
  ∀ p, handle_request env co_dict st1 (obj_key o).1 (obj_key o).2 READ p
       = (st1, Ok payload).
Proof.
  intros Hin Ha Hh Hlen.
  destruct (read_write_objects o Hin Ha Hh) as [Hplain Hmode].
  apply write_then_read with o; [by apply find_own_key | done | done | | done].
  rewrite Hmode. discriminate.
Qed.

Lemma write_then_read_round_trip_witness :
  let o := mkObj (CO_KEY 0x2110 1 [CO_SIGNED16; CO_OBJ____RW]) None
                 (eIndex "STEERING_MANUAL_CMD_FRONT") nullptr INIT_FROM_DB_FLAG in
  let env := mkEnv 1 0x600 0x580 (λ _, 0) in
  let st := registry_init {[ "STEERING_MANUAL_CMD_FRONT"%string := 5 ]} ∅ in
  let '(st1, r1) := handle_request env co_dict st 0x2110 1 WRITE [x9c; xff] in
  r1 = Ok [] ∧
  handle_request env co_dict st1 0x2110 1 READ [] = (st1, Ok [x9c; xff]).
Proof.
  intros o env st.
  pose proof (write_then_read_round_trip env st o [x9c; xff]
                ltac:(by_evaluation) eq_refl ltac:(discriminate) eq_refl) as H.
  cbn [obj_key Key key_index key_subindex o fst snd] in H.
  destruct (handle_request env co_dict st 0x2110 1 WRITE [x9c; xff]) as [st1 r1] eqn:Hw.
  destruct H as [_ Hread]. split; [|apply Hread].
  apply (f_equal snd) in Hw. vm_compute in Hw. by symmetry.
Defined.

(** ** Building [co_dict] *)

(** The rows of [co_dict] are its 261 objects followed by the end mark. *)
Lemma co_dict_end_mark :
  co_dict =
    map (λ o, obj (Key o) (Type_ o) (Data o) (DataPtr o) (ExtraFlags o))
        (used_objects co_dict) ++ [CO_OBJ_DIR_ENDMARK].
Proof. reflexivity. Qed.

(** A table that [build] accepts has matching counts, distinct keys and
    its end mark. *)
Lemma build_Ok (t : list co_dict_row) (l : list CO_OBJ_T) :
  build t = Ok l →
  l = used_objects t ∧ NoDup (map obj_key l) ∧ sentinel_at_end t ∧
  ∀ idx, idx ∈ indices l → subindices_above_0 l idx ≠ [] →
    inline_subindex_0 l idx = Some (Z.of_nat (length (subindices_above_0 l idx))).
Proof.
  unfold build. destruct (decide _) as [(Hnd & Hend & Hcnt)|_]; [|discriminate].
  intros [= <-]. repeat split; try done; try apply Hend.
  intros idx Hin. unfold counts_match in Hcnt. rewrite Forall_forall in Hcnt.
  by apply Hcnt.
Qed.

Lemma build_Err (t : list co_dict_row) (e : error) :
  build t = Err e →
  e = BuildError ∧
  ¬ (NoDup (map obj_key (used_objects t)) ∧ sentinel_at_end t ∧
     counts_match (used_objects t)).
Proof.
  unfold build. destruct (decide _) as [|Hno]; [discriminate|].
  by intros [= <-].
Qed.

(** [co_dict] has distinct keys and its end mark; the check of the counts
    rejects it, because of index 0x2117. *)
Lemma build_co_dict :
  build co_dict = Err BuildError ∧
  NoDup (map obj_key (used_objects co_dict)) ∧ sentinel_at_end co_dict ∧
  ¬ counts_match (used_objects co_dict).
Proof.
  split; [vm_compute; reflexivity|]. split; [apply used_objects_NoDup|].
  split; by_evaluation.
Qed.

(** * Part IV: further properties of the sources *)

(** ** The baud rate *)

(** X1: for every 16-bit baud rate in kBit/s, [get_co_baudrate] returns
    1000 times its argument: the 32-bit product does not wrap, and it
    is at most 65 535 000. *)
Theorem get_co_baudrate_exact (iolib_baud : Z) :
  0 ≤ iolib_baud < 2 ^ 16 →
  get_co_baudrate iolib_baud = 1000 * iolib_baud ∧
  0 ≤ get_co_baudrate iolib_baud ≤ 65535000.
Proof.
  intros H. unfold get_co_baudrate. rewrite Z.mod_small; lia.
Qed.

Lemma get_co_baudrate_exact_witness :
  0 ≤ 500 < 2 ^ 16 ∧ get_co_baudrate 500 = 500000.
Proof.
  split; [lia|]. apply (proj1 (get_co_baudrate_exact 500 ltac:(lia))).
Defined.

(** X2: on 16-bit arguments [get_co_baudrate] keeps the order, so two
    baud rate settings give the same bit rate only when they are equal,
    and dividing the result by 1000 gives the setting back. *)
Theorem get_co_baudrate_order (a b : Z) :
  0 ≤ a < 2 ^ 16 → 0 ≤ b < 2 ^ 16 →
  (a < b ↔ get_co_baudrate a < get_co_baudrate b) ∧
  (get_co_baudrate a = get_co_baudrate b → a = b) ∧
  get_co_baudrate a / 1000 = a.
Proof.
  intros Ha Hb. unfold get_co_baudrate. rewrite !Z.mod_small by lia.
  repeat split; try lia. rewrite Z.div_mul; lia.
Qed.

Lemma get_co_baudrate_order_witness :
  (250 < 500 ↔ get_co_baudrate 250 < get_co_baudrate 500) ∧
  get_co_baudrate 250 / 1000 = 250.
Proof.
  pose proof (get_co_baudrate_order 250 500 ltac:(lia) ltac:(lia)) as (H1 & _ & H3).
  split; [exact H1 | exact H3].
Defined.

(** X3: for every board configuration with a 16-bit baud rate, the
    initialiser hands the stack 1000 times that rate, and a dictionary
    length that fits 16 bits and is the number of rows of [co_dict]: the
    last row within that length is the end mark and every row before it
    is an object. *)
Theorem stack_initializer_dictionary (k_nodeid k_canopen_baudrate : Z) :
  0 ≤ k_canopen_baudrate < 2 ^ 16 →
  let init := stack_initializer k_nodeid k_canopen_baudrate in
  Baudrate init = 1000 * k_canopen_baudrate ∧
  DictLen init = length (Dict init) ∧
  Z.of_nat (DictLen init) mod 2 ^ 16 = Z.of_nat (DictLen init) ∧
  Dict init !! (DictLen init - 1)%nat = Some CO_OBJ_DIR_ENDMARK ∧
  ∀ i, (i < DictLen init - 1)%nat →
    ∃ o, used_objects (Dict init) !! i = Some o ∧
         Dict init !! i = Some (obj (Key o) (Type_ o) (Data o) (DataPtr o) (ExtraFlags o)).
Proof.
  intros Hb init. split; [apply get_co_baudrate_exact, Hb|].
  split; [reflexivity|]. split; [reflexivity|]. split; [reflexivity|].
  intros i Hi. cbn [init stack_initializer Dict DictLen] in *.
  assert (i < length (used_objects co_dict))%nat as Hlt by (revert Hi; vm_compute; lia).
  destruct (lookup_lt_is_Some_2 _ _ Hlt) as [o Ho]. exists o. split; [exact Ho|].
  rewrite co_dict_end_mark at 1. rewrite lookup_app_l by (by rewrite length_map).
  by rewrite list_lookup_fmap, Ho.
Qed.

Lemma stack_initializer_dictionary_witness :
  0 ≤ 500 < 2 ^ 16 ∧
  Baudrate (stack_initializer 1 500) = 500000 ∧
  Dict (stack_initializer 1 500) !! 261%nat = Some CO_OBJ_DIR_ENDMARK.
Proof.
  split; [lia|].
  pose proof (stack_initializer_dictionary 1 500 ltac:(lia)) as (Hb & _ & _ & He & _).
  split; [exact Hb | exact He].
Defined.

(** ** The rows of [co_dict] *)

(** X4: every object of [co_dict] has an index from 0x1000 to 0xFFFF and
    a sub-index from 0 to 0xFF, and its flag word is one size name or-ed
    with one access name. *)
Theorem keys_well_formed (o : CO_OBJ_T) :
  o ∈ used_objects co_dict →
  0x1000 ≤ key_index (Key o) ≤ 0xFFFF ∧
  0 ≤ key_subindex (Key o) ≤ 0xFF ∧
  ∃ size acc, key_flags (Key o) = [size; acc] ∧
              is_size_flag size = true ∧ is_access_flag acc = true.
Proof.
  intros Hin.
  assert (∀ o, o ∈ used_objects co_dict →
            0x1000 ≤ key_index (Key o) ≤ 0xFFFF ∧
            0 ≤ key_subindex (Key o) ≤ 0xFF ∧
            match key_flags (Key o) with
            | [size; acc] => is_size_flag size && is_access_flag acc
            | _ => false
            end = true) as Hall by for_each_element.
  destruct (Hall o Hin) as (Hi & Hs & Hf). split; [exact Hi|]. split; [exact Hs|].
  destruct (key_flags (Key o)) as [|size [|acc [|? ?]]]; try discriminate Hf.
  apply andb_prop in Hf as [Hsz Hac]. by exists size, acc.
Qed.

Lemma keys_well_formed_witness :
  let o := mkObj (CO_KEY 0x2165 7 [CO_UNSIGNED8; CO_OBJ____RW]) None
                 (eIndex "COOLING_FAN_ENABLE") nullptr INIT_FROM_DB_FLAG in
  o ∈ used_objects co_dict ∧
  0x1000 ≤ key_index (Key o) ≤ 0xFFFF ∧
  0 ≤ key_subindex (Key o) ≤ 0xFF ∧
  ∃ size acc, key_flags (Key o) = [size; acc] ∧
              is_size_flag size = true ∧ is_access_flag acc = true.
Proof.
  intros o. split; [by_evaluation|]. apply (keys_well_formed o). by_evaluation.
Defined.

(** X5: an object of [co_dict] has the string type [CO_TSTRING] exactly
    when it is flagged [CO_STRING] and exactly when its [DataPtr] points
    into [manuf_data]; such an object is read-only, and the element it
    points to exists, has offset 0 and starts at one of the constant
    arrays. *)
Theorem string_objects (o : CO_OBJ_T) :
  o ∈ used_objects co_dict →
  (Type_ o = Some CO_TSTRING ↔ CO_STRING ∈ key_flags (Key o)) ∧
  (Type_ o = Some CO_TSTRING ↔ ∃ i, DataPtr o = Addr "manuf_data" i) ∧
  (Type_ o = Some CO_TSTRING →
     access_of o = Some read_only ∧
     ∃ i start, DataPtr o = Addr "manuf_data" i ∧
                manuf_data !! i = Some (0, start) ∧ start ∈ const_strings).
Proof.
  intros Hin.
  assert (∀ o, o ∈ used_objects co_dict →
            (Type_ o = Some CO_TSTRING ↔ CO_STRING ∈ key_flags (Key o)) ∧
            (Type_ o = Some CO_TSTRING ↔
               match DataPtr o with
               | Addr object _ => bool_decide (object = "manuf_data"%string)
               | _ => false
               end = true) ∧
            (Type_ o = Some CO_TSTRING →
               access_of o = Some read_only ∧
               match DataPtr o with
               | Addr object i =>
                 match manuf_data !! i with
                 | Some (off, start) =>
                   bool_decide (object = "manuf_data"%string ∧ off = 0 ∧
                                start ∈ const_strings)
                 | None => false
                 end
               | _ => false
               end = true)) as Hall by for_each_element.
  destruct (Hall o Hin) as (Hflag & Hptr & Hstr). split; [exact Hflag|]. split.
  - rewrite Hptr. destruct (DataPtr o) as [| |object i].
    + split; [intros [=] | intros [? [=]]].
    + split; [intros [=] | intros [? [=]]].
    + rewrite bool_decide_eq_true.
      split; [intros ->; by exists i | by intros [? [= -> _]]].
  - intros Ht. destruct (Hstr Ht) as [Ha Hp]. split; [exact Ha|].
    destruct (DataPtr o) as [| |object i]; try discriminate Hp.
    destruct (manuf_data !! i) as [[off start]|] eqn:Hm; try discriminate Hp.
    apply bool_decide_eq_true in Hp as (-> & -> & Hp). by exists i, start.
Qed.

Lemma string_objects_witness :
  let o := mkObj (CO_KEY 0x1009 0 [CO_STRING; CO_OBJ____R_]) (Some CO_TSTRING) (Lit 0)
                 (Addr "manuf_data" 1) NoExtraFlags in
  o ∈ used_objects co_dict ∧
  ∃ i start, DataPtr o = Addr "manuf_data" i ∧
             manuf_data !! i = Some (0, start) ∧ start ∈ const_strings.
Proof.
  intros o. split; [by_evaluation|].
  apply (proj2 (proj2 (string_objects o ltac:(by_evaluation))) eq_refl).
Defined.

(** X6: whenever an object of [co_dict] holds an address in [DataPtr],
    the element addressed lies within the declared object, and the size
    the row announces is that of the element type: one byte for
    [k_commit_time], four bytes for [k_commit_hash], a string for
    [manuf_data]. *)
Theorem pointers_in_bounds (o : CO_OBJ_T) (object : string) (off : nat) :
  o ∈ used_objects co_dict →
  DataPtr o = Addr object off →
  ∃ ty n, declared_object object = Some (ty, n) ∧ (off < n)%nat ∧
    match ty with
    | uint8_t => obj_size o = Some (1%nat, false) ∧ Type_ o = None
    | uint32_t => obj_size o = Some (4%nat, false) ∧ Type_ o = None
    | CO_OBJ_STR => obj_size o = None ∧ Type_ o = Some CO_TSTRING
    end.
Proof.
  intros Hin Hp.
  assert (∀ o, o ∈ used_objects co_dict →
            match DataPtr o with
            | Addr object off =>
              match declared_object object with
              | Some (ty, n) =>
                bool_decide (off < n)%nat &&
                match ty with
                | uint8_t =>
                  bool_decide (obj_size o = Some (1%nat, false) ∧ Type_ o = None)
                | uint32_t =>
                  bool_decide (obj_size o = Some (4%nat, false) ∧ Type_ o = None)
                | CO_OBJ_STR =>
                  bool_decide (obj_size o = None ∧ Type_ o = Some CO_TSTRING)
                end
              | None => false
              end
            | _ => true
            end = true) as Hall by for_each_element.
  specialize (Hall o Hin). rewrite Hp in Hall.
  destruct (declared_object object) as [[ty n]|]; [|discriminate Hall].
  apply andb_prop in Hall as [Hlt Hty]. apply bool_decide_eq_true in Hlt.
  exists ty, n. split; [done|]. split; [done|].
  destruct ty; by apply bool_decide_eq_true in Hty.
Qed.

Lemma pointers_in_bounds_witness :
  let o := mkObj (CO_KEY 0x2103 4 [CO_UNSIGNED8; CO_OBJ____R_]) None (Lit 0)
                 (Addr "k_commit_time" 2) NoExtraFlags in
  o ∈ used_objects co_dict ∧
  ∃ ty n, declared_object "k_commit_time" = Some (ty, n) ∧ (2 < n)%nat ∧
    match ty with
    | uint8_t => obj_size o = Some (1%nat, false) ∧ Type_ o = None
    | uint32_t => obj_size o = Some (4%nat, false) ∧ Type_ o = None
    | CO_OBJ_STR => obj_size o = None ∧ Type_ o = Some CO_TSTRING
    end.
Proof.
  intros o. split; [by_evaluation|].
  apply (pointers_in_bounds o "k_commit_time" 2); [by_evaluation | reflexivity].
Defined.

(** X7: an object of [co_dict] is direct exactly when its [DataPtr] is
    the literal 0; a direct object is a read-only value without type and
    without extra flags, and it asks for the node id exactly when its
    [Data] is one of the two SDO COB-id macros, otherwise [Data] is a
    literal. *)
Theorem direct_objects (o : CO_OBJ_T) :
  o ∈ used_objects co_dict →
  (is_direct o = true ↔ DataPtr o = Zero) ∧
  (is_direct o = true →
     Type_ o = None ∧ ExtraFlags o = NoExtraFlags ∧ access_of o = Some read_only ∧
     (adds_nodeid o = true ↔
        Data o = CO_COBID_SDO_REQUEST ∨ Data o = CO_COBID_SDO_RESPONSE) ∧
     (adds_nodeid o = false ↔ ∃ v, Data o = Lit v)).
Proof.
  intros Hin.
  assert (∀ o, o ∈ used_objects co_dict →
     (is_direct o = true ↔ DataPtr o = Zero) ∧
     (is_direct o = true →
       Type_ o = None ∧ ExtraFlags o = NoExtraFlags ∧ access_of o = Some read_only ∧
       (adds_nodeid o = true ↔
          Data o = CO_COBID_SDO_REQUEST ∨ Data o = CO_COBID_SDO_RESPONSE) ∧
       (adds_nodeid o = false ↔
          match Data o with Lit _ => true | _ => false end = true))) as Hall
    by for_each_element.
  destruct (Hall o Hin) as [Hiff Hd]. split; [exact Hiff|].
  intros Hdir. destruct (Hd Hdir) as (Ht & Hx & Ha & Hn & Hl).
  repeat split; try done; try apply Hn.
  - intros H. apply Hl in H. destruct (Data o) as [v| | |]; try done. by exists v.
  - intros [v Hv]. apply Hl. by rewrite Hv.
Qed.

Lemma direct_objects_witness :
  let o := mkObj (CO_KEY 0x1200 1 [CO_UNSIGNED32; CO_OBJ_DN_R_]) None
                 CO_COBID_SDO_REQUEST Zero NoExtraFlags in
  o ∈ used_objects co_dict ∧ is_direct o = true ∧
  Type_ o = None ∧ ExtraFlags o = NoExtraFlags ∧ access_of o = Some read_only ∧
  (adds_nodeid o = true ↔
     Data o = CO_COBID_SDO_REQUEST ∨ Data o = CO_COBID_SDO_RESPONSE) ∧
  (adds_nodeid o = false ↔ ∃ v, Data o = Lit v).
Proof.
  intros o. split; [by_evaluation|]. split; [reflexivity|].
  apply (proj2 (direct_objects o ltac:(by_evaluation)) eq_refl).
Defined.

(** X8: no two objects of [co_dict] name the same [db::eIndex]
    enumerator: every database value is reachable under one key only. *)
Theorem database_keys_distinct (o1 o2 : CO_OBJ_T) (n : string) :
  o1 ∈ used_objects co_dict → o2 ∈ used_objects co_dict →
  Data o1 = eIndex n → Data o2 = eIndex n → o1 = o2.
Proof.
  intros H1 H2 Hd1 Hd2.
  assert (∀ o1, o1 ∈ used_objects co_dict →
            Forall (λ o2, is_Some (external_key o1) →
                          external_key o1 = external_key o2 → o1 = o2)
                   (used_objects co_dict)) as Hall by for_each_element.
  specialize (Hall o1 H1). rewrite Forall_forall in Hall.
  apply (Hall o2 H2); unfold external_key; rewrite ?Hd1, ?Hd2; eauto.
Qed.

Lemma database_keys_distinct_witness :
  let o := mkObj (CO_KEY 0x1017 0 [CO_UNSIGNED16; CO_OBJ____R_]) None
                 (eIndex "CO_PRODUCER_HB") nullptr INIT_FROM_DB_FLAG in
  o ∈ used_objects co_dict ∧ Data o = eIndex "CO_PRODUCER_HB" ∧
  ∀ o', o' ∈ used_objects co_dict → Data o' = eIndex "CO_PRODUCER_HB" → o = o'.
Proof.
  intros o. split; [by_evaluation|]. split; [reflexivity|].
  intros o' Hin Hd.
  apply (database_keys_distinct o o' "CO_PRODUCER_HB" ltac:(by_evaluation) Hin eq_refl Hd).
Defined.

(** X9: every object of [co_dict] can be read, and every object that can
    be written is initialised from the database, is not direct and has a
    scalar size: constants, strings and build information are never
    writable. *)
Theorem writable_objects_are_database_backed (o : CO_OBJ_T) :
  o ∈ used_objects co_dict →
  is_readable o = true ∧
  (is_writable o = true →
     ExtraFlags o = INIT_FROM_DB_FLAG ∧ is_direct o = false ∧
     ∃ size, obj_size o = Some size).
Proof.
  intros Hin.
  assert (∀ o, o ∈ used_objects co_dict →
            is_readable o = true ∧
            (is_writable o = true →
               ExtraFlags o = INIT_FROM_DB_FLAG ∧ is_direct o = false ∧
               is_Some (obj_size o))) as Hall by for_each_element.
  destruct (Hall o Hin) as [Hr Hw]. split; [exact Hr|].
  intros H. destruct (Hw H) as (Hx & Hd & [size Hs]). eauto.
Qed.

Lemma writable_objects_are_database_backed_witness :
  let o := mkObj (CO_KEY 0x2108 16 [CO_SIGNED16; CO_OBJ____RW]) None
                 (eIndex "PSTED_MANUAL_REFTORQUE") nullptr INIT_FROM_DB_FLAG in
  o ∈ used_objects co_dict ∧ is_writable o = true ∧
  ExtraFlags o = INIT_FROM_DB_FLAG ∧ is_direct o = false ∧
  ∃ size, obj_size o = Some size.
Proof.
  intros o. split; [by_evaluation|]. split; [reflexivity|].
  apply (proj2 (writable_objects_are_database_backed o ltac:(by_evaluation)) eq_refl).
Defined.

(** X10: for every object of [co_dict] at a sub-index greater than 0,
    sub-index 0 of the same index is a direct read-only [CO_UNSIGNED8]
    constant, the sub-index of the object is at most that constant, and
    the constant itself is a sub-index of the index: it is the highest
    sub-index listed. *)
Theorem subindex_within_announced_range (o : CO_OBJ_T) :
  o ∈ used_objects co_dict →
  0 < key_subindex (Key o) →
  ∃ n, mkObj (CO_KEY (key_index (Key o)) 0 [CO_UNSIGNED8; CO_OBJ_D__R_]) None (Lit n)
             Zero NoExtraFlags ∈ used_objects co_dict ∧
       key_subindex (Key o) ≤ n ≤ 0xFF ∧
       (key_index (Key o), n) ∈ map obj_key (used_objects co_dict).
Proof.
  intros Hin Hs.
  assert (∀ o, o ∈ used_objects co_dict → 0 < key_subindex (Key o) →
            match inline_subindex_0 (used_objects co_dict) (key_index (Key o)) with
            | Some n =>
              bool_decide
                (mkObj (CO_KEY (key_index (Key o)) 0 [CO_UNSIGNED8; CO_OBJ_D__R_]) None
                       (Lit n) Zero NoExtraFlags ∈ used_objects co_dict ∧
                 key_subindex (Key o) ≤ n ≤ 0xFF ∧
                 (key_index (Key o), n) ∈ map obj_key (used_objects co_dict))
            | None => false
            end = true) as Hall by for_each_element.
  specialize (Hall o Hin Hs).
  destruct (inline_subindex_0 _ _) as [n|]; [|discriminate Hall].
  apply bool_decide_eq_true in Hall. by exists n.
Qed.

Lemma subindex_within_announced_range_witness :
  let o := mkObj (CO_KEY 0x2117 9 [CO_UNSIGNED16; CO_OBJ____RW]) None
                 (eIndex "BRAKE_SOL_ACCUM_REAR_MANUAL_CTRL") nullptr INIT_FROM_DB_FLAG in
  o ∈ used_objects co_dict ∧ 0 < key_subindex (Key o) ∧
  ∃ n, mkObj (CO_KEY 0x2117 0 [CO_UNSIGNED8; CO_OBJ_D__R_]) None (Lit n)
             Zero NoExtraFlags ∈ used_objects co_dict ∧
       9 ≤ n ≤ 0xFF ∧
       (0x2117, n) ∈ map obj_key (used_objects co_dict).
Proof.
  intros o. split; [by_evaluation|]. split; [reflexivity|].
  apply (subindex_within_announced_range o); [by_evaluation | reflexivity].
Defined.

(** ** The entries of [OBJECT_DICTIONARY] *)

(** X11: the map holds exactly the pairs of its initialiser list: no pair
    is dropped for a repeated key, and nothing else is found. *)
Theorem OBJECT_DICTIONARY_holds_every_pair (k : ODEntryKey) (v : ODEntryValue) :
  (k, v) ∈ OBJECT_DICTIONARY_init ↔ OBJECT_DICTIONARY !! k = Some v.
Proof.
  unfold OBJECT_DICTIONARY. apply elem_of_list_to_map. by_evaluation.
Qed.

(** X12: two entries of [OBJECT_DICTIONARY] with the same subgroup and
    the same display name are the same entry. *)
Theorem display_path_identifies_key (k1 k2 : ODEntryKey) (v1 v2 : ODEntryValue) :
  OBJECT_DICTIONARY !! k1 = Some v1 → OBJECT_DICTIONARY !! k2 = Some v2 →
  od_subgroup v1 = od_subgroup v2 → od_name v1 = od_name v2 →
  k1 = k2.
Proof.
  revert k1 v1 k2 v2.
  assert (map_Forall (λ k1 v1, map_Forall (λ k2 v2,
            od_subgroup v1 = od_subgroup v2 → od_name v1 = od_name v2 → k1 = k2)
            OBJECT_DICTIONARY) OBJECT_DICTIONARY) as Hall by by_evaluation.
  intros k1 v1 k2 v2 H1 H2. exact (Hall k1 v1 H1 k2 v2 H2).
Qed.

Lemma display_path_identifies_key_witness :
  let v := ODEntry "CONFIG" "MOTOR" "FAN_TEMP_TH_ON" "°C" OD_FLOAT32 true true in
  OBJECT_DICTIONARY !! (0x2100, 0x07) = Some v ∧
  ∀ k, OBJECT_DICTIONARY !! k = Some v → k = (0x2100, 0x07).
Proof.
  intros v. split; [vm_compute; reflexivity|]. intros k Hk.
  apply (display_path_identifies_key k (0x2100, 0x07) v v Hk); vm_compute; reflexivity.
Defined.

(** X13: except for the end entry (0xFFFF, 0xFF), the sub-indices of an
    index of [OBJECT_DICTIONARY] are contiguous from 0: with (index, sub)
    every (index, s) for s from 0 to sub is a key. *)
Theorem metadata_subindices_contiguous (idx sub : Z) (v : ODEntryValue) :
  OBJECT_DICTIONARY !! (idx, sub) = Some v →
  (idx, sub) ≠ (0xFFFF, 0xFF) →
  0 ≤ sub ∧ ∀ s, 0 ≤ s ≤ sub → is_Some (OBJECT_DICTIONARY !! (idx, s)).
Proof.
  assert (map_Forall (λ k _, k ≠ (0xFFFF, 0xFF) →
            0 ≤ k.2 ∧
            Forall (λ s, is_Some (OBJECT_DICTIONARY !! (k.1, s)))
                   (seqZ 0 (k.2 + 1))) OBJECT_DICTIONARY) as Hall by by_evaluation.
  intros Hk Hne. destruct (Hall _ _ Hk Hne) as [H0 Hs]. cbn [fst snd] in H0, Hs.
  split; [exact H0|]. intros s Hr. rewrite Forall_forall in Hs. apply Hs.
  apply elem_of_seqZ. lia.
Qed.

Lemma metadata_subindices_contiguous_witness :
  (0x2000, 0x16) ≠ (0xFFFF, 0xFF) ∧
  ∀ s, 0 ≤ s ≤ 0x16 → is_Some (OBJECT_DICTIONARY !! (0x2000, s)).
Proof.
  split; [discriminate|].
  apply (metadata_subindices_contiguous 0x2000 0x16
           (ODEntry "WATCH" "WATCH" "OUT_ELEC_POWER" "W" OD_FLOAT32 true false));
    [vm_compute; reflexivity | discriminate].
Defined.

(** X14: in [OBJECT_DICTIONARY] the group is determined by the index: two
    entries of the same index are in the same group. *)
Theorem group_determined_by_index (idx s1 s2 : Z) (v1 v2 : ODEntryValue) :
  OBJECT_DICTIONARY !! (idx, s1) = Some v1 → OBJECT_DICTIONARY !! (idx, s2) = Some v2 →
  od_group v1 = od_group v2.
Proof.
  assert (map_Forall (λ k1 v1, map_Forall (λ k2 v2,
            k1.1 = k2.1 → od_group v1 = od_group v2)
            OBJECT_DICTIONARY) OBJECT_DICTIONARY) as Hall by by_evaluation.
  intros H1 H2. exact (Hall _ _ H1 _ _ H2 eq_refl).
Qed.

Lemma group_determined_by_index_witness :
  let v1 := ODEntry "CONFIG" "MODEL" "REFERENCE" "n-M" OD_ENUM true true in
  let v2 := ODEntry "CONFIG" "MODEL_FLUX_WEAKENING" "ID_MAX_FLUXWEAK" "A" OD_FLOAT32
                    true true in
  OBJECT_DICTIONARY !! (0x2101, 0x00) = Some v1 ∧
  OBJECT_DICTIONARY !! (0x2101, 0x11) = Some v2 ∧
  od_group v1 = od_group v2.
Proof.
  intros v1 v2.
  assert (OBJECT_DICTIONARY !! (0x2101, 0x00) = Some v1) as H1 by (vm_compute; reflexivity).
  assert (OBJECT_DICTIONARY !! (0x2101, 0x11) = Some v2) as H2 by (vm_compute; reflexivity).
  split; [exact H1|]. split; [exact H2|].
  exact (group_determined_by_index 0x2101 0x00 0x11 v1 v2 H1 H2).
Defined.

(** X15: the end entry (0xFFFF, 0xFF) is the only entry of
    [OBJECT_DICTIONARY] that is neither monitorable nor configurable;
    every other [OD_FUNC] entry is configurable, and no [OD_STRING] entry
    is. *)
Theorem only_sentinel_is_inert (k : ODEntryKey) (v : ODEntryValue) :
  OBJECT_DICTIONARY !! k = Some v →
  (od_monitorable v = false ∧ od_configurable v = false ↔ k = (0xFFFF, 0xFF)) ∧
  (od_type v = OD_FUNC → k ≠ (0xFFFF, 0xFF) → od_configurable v = true) ∧
  (od_type v = OD_STRING → od_configurable v = false).
Proof.
  revert k v.
  change (map_Forall (λ k v,
    (od_monitorable v = false ∧ od_configurable v = false ↔ k = (0xFFFF, 0xFF)) ∧
    (od_type v = OD_FUNC → k ≠ (0xFFFF, 0xFF) → od_configurable v = true) ∧
    (od_type v = OD_STRING → od_configurable v = false)) OBJECT_DICTIONARY).
  by_evaluation.
Qed.

Lemma only_sentinel_is_inert_witness :
  let v := ODEntry "SYSTEM CONTROL" "SYSTEM CONTROL" "RESET FAULTS" EmptyString OD_FUNC
                   false true in
  OBJECT_DICTIONARY !! (0x2002, 0x05) = Some v ∧ od_configurable v = true.
Proof.
  intros v.
  assert (OBJECT_DICTIONARY !! (0x2002, 0x05) = Some v) as H by (vm_compute; reflexivity).
  split; [exact H|].
  apply (proj1 (proj2 (only_sentinel_is_inert (0x2002, 0x05) v H)));
    [reflexivity | discriminate].
Defined.

(** ** Two remarks on the map *)

(** The five keys for which [co_dict] holds a writable object are
    configurable keys of [OBJECT_DICTIONARY]. *)
Example writable_keys_are_configurable :
  Forall (λ k, ∃ v, OBJECT_DICTIONARY !! k = Some v ∧ od_configurable v = true)
         [(0x2100, 1); (0x2100, 2); (0x2101, 1); (0x2102, 1); (0x2102, 2)].
Proof. repeat constructor; eexists; split; vm_compute; reflexivity. Qed.

(** The display name alone does not identify an entry: FAN_TEMP_TH_ON
    names an entry of the motor and one of the converter. *)
Example display_name_is_shared :
  ∃ v1 v2, OBJECT_DICTIONARY !! (0x2100, 0x07) = Some v1 ∧
           OBJECT_DICTIONARY !! (0x2102, 0x07) = Some v2 ∧
           od_name v1 = od_name v2 ∧ od_subgroup v1 ≠ od_subgroup v2.
Proof. do 2 eexists. repeat split; try (vm_compute; reflexivity). by_evaluation. Qed.
